(** * K4_OOP: vacancy model, filter engine and storage backends

    A shallow embedding of [src/integration.py], [src/file_manager.py] and
    the truncation step of [main.py], with the properties of the
    specification stated over it.

    Python objects are modelled by the type [pyval] of JSON-shaped values
    (the payload comes from [response.json()], the persisted records go
    through [json.dump]); numbers are integers, as the salary bounds of the
    remote API are.  A Python exception is an explicit [Raise] outcome. *)

From Stdlib Require Import ZArith Ascii Lia.
From stdpp Require Import base option list strings gmap.

Local Open Scope Z_scope.

(** ** Exceptions and outcomes *)

Inductive exn : Type :=
| AttributeError
| TypeError
| ValueError
| KeyError
| IndexError
| FileNotFoundError
| JSONDecodeError.

Inductive outcome (A : Type) : Type :=
| Return (a : A)
| Raise (e : exn).

Arguments Return {A} a.
Arguments Raise {A} e.

#[global] Instance outcome_ret : MRet outcome := fun A a => Return a.

#[global] Instance outcome_bind : MBind outcome := fun A B k m =>
  match m with
  | Return a => k a
  | Raise e => Raise e
  end.

#[global] Instance outcome_fmap : FMap outcome := fun A B f m =>
  match m with
  | Return a => Return (f a)
  | Raise e => Raise e
  end.

(** ** Python values *)

Unset Elimination Schemes.

Inductive pyval : Type :=
| PyNone
| PyBool (b : bool)
| PyInt (z : Z)
| PyStr (s : string)
| PyList (items : list pyval)
| PyDict (entries : list (string * pyval)).

Set Elimination Schemes.

(** A Python [dict] keeps its keys in insertion order and has no key twice;
    [entries] lists them in that order, and look-up takes the first binding. *)
Fixpoint assoc_get {A : Type} (k : string) (d : list (string * A)) : option A :=
  match d with
  | [] => None
  | (k', v) :: d' => if String.eqb k k' then Some v else assoc_get k d'
  end.

Definition dict_keys {A : Type} (d : list (string * A)) : list string := d.*1.

(** [bool(v)]: the truth value used by [if], [not], [and], [or]. *)
Definition truthy (v : pyval) : bool :=
  match v with
  | PyNone => false
  | PyBool b => b
  | PyInt z => negb (z =? 0)
  | PyStr s => negb (String.eqb s "")
  | PyList l => match l with [] => false | _ => true end
  | PyDict d => match d with [] => false | _ => true end
  end.

(** [a == b].  [bool] is a subclass of [int] ([True == 1]); dictionaries are
    equal when they have the same keys with equal values, in any order. *)
Fixpoint py_eq (a b : pyval) {struct a} : bool :=
  match a, b with
  | PyNone, PyNone => true
  | PyBool x, PyBool y => Bool.eqb x y
  | PyBool x, PyInt y => Z.b2z x =? y
  | PyInt x, PyBool y => x =? Z.b2z y
  | PyInt x, PyInt y => x =? y
  | PyStr x, PyStr y => String.eqb x y
  | PyList xs, PyList ys =>
      (fix pairwise (xs ys : list pyval) {struct xs} : bool :=
         match xs, ys with
         | [], [] => true
         | x :: xs', y :: ys' => py_eq x y && pairwise xs' ys'
         | _, _ => false
         end) xs ys
  | PyDict xs, PyDict ys =>
      Nat.eqb (List.length xs) (List.length ys) &&
      (fix each (xs : list (string * pyval)) {struct xs} : bool :=
         match xs with
         | [] => true
         | (k, v) :: xs' =>
             match assoc_get k ys with
             | Some w => py_eq v w
             | None => false
             end && each xs'
         end) xs
  | _, _ => false
  end.

(** The ordering operators [<], [<=], [>], [>=]. *)
Inductive cmpop : Type := Lt | Le | Gt | Ge.

Definition cmp_holds (op : cmpop) (c : comparison) : bool :=
  match op, c with
  | Lt, Datatypes.Lt => true
  | Le, (Datatypes.Lt | Datatypes.Eq) => true
  | Gt, Datatypes.Gt => true
  | Ge, (Datatypes.Gt | Datatypes.Eq) => true
  | _, _ => false
  end.

(** [a op b]: integers (and booleans) by value, strings and lists
    lexicographically; every other pairing raises [TypeError]. *)
Fixpoint py_compare (op : cmpop) (a b : pyval) {struct a} : outcome bool :=
  match a, b with
  | PyInt x, PyInt y => Return (cmp_holds op (x ?= y))
  | PyInt x, PyBool y => Return (cmp_holds op (x ?= Z.b2z y))
  | PyBool x, PyInt y => Return (cmp_holds op (Z.b2z x ?= y))
  | PyBool x, PyBool y => Return (cmp_holds op (Z.b2z x ?= Z.b2z y))
  | PyStr x, PyStr y => Return (cmp_holds op (String.compare x y))
  | PyList xs, PyList ys =>
      (fix lexico (xs ys : list pyval) {struct xs} : outcome bool :=
         match xs, ys with
         | [], [] => Return (cmp_holds op Datatypes.Eq)
         | [], _ :: _ => Return (cmp_holds op Datatypes.Lt)
         | _ :: _, [] => Return (cmp_holds op Datatypes.Gt)
         | x :: xs', y :: ys' =>
             if py_eq x y then lexico xs' ys' else py_compare op x y
         end) xs ys
  | _, _ => Raise TypeError
  end.

(** [obj.get(key)]: only a [dict] has the method. *)
Definition py_get (obj : pyval) (key : string) : outcome pyval :=
  match obj with
  | PyDict d => Return (default PyNone (assoc_get key d))
  | _ => Raise AttributeError
  end.

(** [obj[key]] with a string key. *)
Definition py_getitem (obj : pyval) (key : string) : outcome pyval :=
  match obj with
  | PyDict d =>
      match assoc_get key d with
      | Some v => Return v
      | None => Raise KeyError
      end
  | _ => Raise TypeError
  end.

Definition is_none (v : pyval) : bool :=
  match v with
  | PyNone => true
  | _ => false
  end.

(** Iterating a value ([for x in v]): a list yields its items, a [dict] its
    keys, a string its characters; the other values are not iterable. *)
Definition py_iter (v : pyval) : outcome (list pyval) :=
  match v with
  | PyList l => Return l
  | PyDict d => Return (PyStr <$> dict_keys d)
  | PyStr s => Return ((fun c => PyStr (String c EmptyString)) <$> String.list_ascii_of_string s)
  | _ => Raise TypeError
  end.

(** ** The builtin [int()]

    Text is held as its UTF-8 bytes.  On text [int()] works as CPython 3.11
    does: a text with a character beyond ASCII is first brought to ASCII
    (a Unicode space becomes a blank, a decimal digit of any script its
    ASCII digit, anything else stops the text with a question mark); then
    the blanks around the numeral are dropped (tab to carriage return, and
    the blank), one sign is allowed, the decimal digits may be grouped by
    single underscores, and a numeral of more than 4300 digits is refused
    (the default limit).  The digits are those of Unicode 14.0. *)

(** The code points of UTF-8 bytes; [None] when the bytes are no UTF-8. *)
Fixpoint utf8_decode (bytes : list N) : option (list N) :=
  let continues (b : N) := ((128 <=? b) && (b <? 192))%N in
  match bytes with
  | [] => Some []
  | b0 :: r0 =>
      if (b0 <? 128)%N then (b0 ::.) <$> utf8_decode r0
      else if (b0 <? 192)%N then None
      else if (b0 <? 224)%N then
        match r0 with
        | b1 :: r1 =>
            if continues b1
            then (((b0 - 192) * 64 + (b1 - 128))%N ::.) <$> utf8_decode r1
            else None
        | _ => None
        end
      else if (b0 <? 240)%N then
        match r0 with
        | b1 :: b2 :: r2 =>
            if continues b1 && continues b2
            then ((((b0 - 224) * 64 + (b1 - 128)) * 64 + (b2 - 128))%N ::.) <$> utf8_decode r2
            else None
        | _ => None
        end
      else if (b0 <? 248)%N then
        match r0 with
        | b1 :: b2 :: b3 :: r3 =>
            if continues b1 && continues b2 && continues b3
            then (((((b0 - 240) * 64 + (b1 - 128)) * 64 + (b2 - 128)) * 64 + (b3 - 128))%N ::.)
                   <$> utf8_decode r3
            else None
        | _ => None
        end
      else None
  end.

(** The digit zero of each run of decimal digits (category Nd). *)
Definition decimal_zeros : list N :=
  [0x30; 0x660; 0x6f0; 0x7c0; 0x966; 0x9e6; 0xa66; 0xae6; 0xb66; 0xbe6; 0xc66; 0xce6;
   0xd66; 0xde6; 0xe50; 0xed0; 0xf20; 0x1040; 0x1090; 0x17e0; 0x1810; 0x1946; 0x19d0;
   0x1a80; 0x1a90; 0x1b50; 0x1bb0; 0x1c40; 0x1c50; 0xa620; 0xa8d0; 0xa900; 0xa9d0;
   0xa9f0; 0xaa50; 0xabf0; 0xff10; 0x104a0; 0x10d30; 0x11066; 0x110f0; 0x11136;
   0x111d0; 0x112f0; 0x11450; 0x114d0; 0x11650; 0x116c0; 0x11730; 0x118e0; 0x11950;
   0x11c50; 0x11d50; 0x11da0; 0x16a60; 0x16ac0; 0x16b50; 0x1d7ce; 0x1d7d8; 0x1d7e2;
   0x1d7ec; 0x1d7f6; 0x1e140; 0x1e2f0; 0x1e950; 0x1fbf0]%N.

(** The spaces beyond ASCII. *)
Definition unicode_spaces : list N :=
  [0x85; 0xa0; 0x1680; 0x2000; 0x2001; 0x2002; 0x2003; 0x2004; 0x2005; 0x2006; 0x2007;
   0x2008; 0x2009; 0x200a; 0x2028; 0x2029; 0x202f; 0x205f; 0x3000]%N.

Definition to_decimal (cp : N) : option N :=
  (fun zero => (cp - zero)%N)
    <$> List.find (fun zero => ((zero <=? cp) && (cp <=? zero + 9))%N) decimal_zeros.

(** The text brought to ASCII. *)
Fixpoint to_ascii (cps : list N) : list ascii :=
  match cps with
  | [] => []
  | cp :: rest =>
      if (cp <? 127)%N then ascii_of_N cp :: to_ascii rest
      else if existsb (N.eqb cp) unicode_spaces then " "%char :: to_ascii rest
      else
        match to_decimal cp with
        | Some d => ascii_of_N (48 + d) :: to_ascii rest
        | None => ["?"%char]
        end
  end.

Definition is_space (c : ascii) : bool :=
  let n := nat_of_ascii c in
  ((9 <=? n) && (n <=? 13) || (n =? 32))%nat.

Definition digit_of (c : ascii) : option Z :=
  let n := nat_of_ascii c in
  if ((48 <=? n) && (n <=? 57))%nat then Some (Z.of_nat (n - 48)) else None.

Fixpoint digits_value (acc : Z) (after_digit : bool) (cs : list ascii) : option Z :=
  match cs with
  | [] => if after_digit then Some acc else None
  | c :: cs' =>
      match digit_of c with
      | Some d => digits_value (10 * acc + d) true cs'
      | None =>
          if Ascii.eqb c "_"%char && after_digit
          then digits_value acc false cs'
          else None
      end
  end.

(** The numeral after the sign: its value, unless it has more than 4300
    digits. *)
Definition numeral_value (cs : list ascii) : option Z :=
  if (List.length (List.filter (fun c => bool_decide (is_Some (digit_of c))) cs) <=? 4300)%nat
  then digits_value 0 false cs
  else None.

Fixpoint drop_spaces (cs : list ascii) : list ascii :=
  match cs with
  | c :: cs' => if is_space c then drop_spaces cs' else cs
  | [] => []
  end.

Definition strip (cs : list ascii) : list ascii :=
  rev (drop_spaces (rev (drop_spaces cs))).

Definition int_of_text (s : string) : option Z :=
  cps ← utf8_decode (N_of_ascii <$> String.list_ascii_of_string s);
  match strip (to_ascii cps) with
  | c :: cs =>
      if Ascii.eqb c "-"%char then Z.opp <$> numeral_value cs
      else if Ascii.eqb c "+"%char then numeral_value cs
      else numeral_value (c :: cs)
  | [] => None
  end.

Definition py_int (v : pyval) : outcome pyval :=
  match v with
  | PyInt z => Return (PyInt z)
  | PyBool b => Return (PyInt (Z.b2z b))
  | PyStr s =>
      match int_of_text s with
      | Some z => Return (PyInt z)
      | None => Raise ValueError
      end
  | _ => Raise TypeError
  end.

(** ** integration.py: the [Vacancy] class *)

Record Vacancy : Type := mkVacancy {
  name : pyval;
  _url : pyval;
  salary : pyval;
  description : pyval;
  requirements : pyval
}.

(** [Vacancy(name, url=..., salary=..., description=..., requirements=...)]:
    an argument that is left out takes the default [""]. *)
Definition __init__ (name : pyval) (url salary description requirements : option pyval)
  : Vacancy :=
  mkVacancy name
    (default (PyStr "") url)
    (default (PyStr "") salary)
    (default (PyStr "") description)
    (default (PyStr "") requirements).

(** What a method of the class hands back: a record or a plain value. *)
Inductive pyobj : Type :=
| Obj (v : Vacancy)
| Val (v : pyval).

(** One round of the comprehension of [json_to_object]. *)
Definition vacancy_of_item (vacancy : pyval) : outcome Vacancy :=
  n ← py_get vacancy "name";
  u ← py_get vacancy "url";
  s ← py_get vacancy "salary";
  d ← py_get vacancy "description";
  snippet ← py_get vacancy "snippet";
  r ← py_get snippet "requirement";
  mret (mkVacancy n u s d r).

Definition json_to_object (vacancies : pyval) : outcome (list Vacancy) :=
  items ← py_get vacancies "items";
  seq ← py_iter items;
  mapM vacancy_of_item seq.

Definition is_filter_by_salary (salary_filter_value vacancy_salary : pyval)
  : outcome pyval :=
  if negb (truthy salary_filter_value) then mret (PyBool true)
  else if is_none vacancy_salary then mret (PyBool false)
  else
    source_salary ← py_get vacancy_salary "from";
    destination_salary ← py_get vacancy_salary "to";
    if truthy source_salary && negb (truthy destination_salary) then
      PyBool <$> py_compare Ge salary_filter_value source_salary
    else if negb (truthy source_salary) && truthy destination_salary then
      PyBool <$> py_compare Le salary_filter_value destination_salary
    else if truthy source_salary && truthy destination_salary then
      low ← py_compare Le source_salary salary_filter_value;
      if (low : bool) then PyBool <$> py_compare Le salary_filter_value destination_salary
      else mret (PyBool false)
    else mret PyNone.

(** [kwargs.get(key)] of the keyword arguments. *)
Definition kwarg (kwargs : gmap string pyval) (key : string) : pyval :=
  default PyNone (kwargs !! key).

(** [int(salary) if salary else None], a [ValueError] giving [None]. *)
Definition salary_threshold (salary : pyval) : outcome pyval :=
  if truthy salary then
    match py_int salary with
    | Raise ValueError => mret PyNone
    | r => r
    end
  else mret PyNone.

(** [not criterion or field == criterion] *)
Definition field_matches (criterion field : pyval) : bool :=
  negb (truthy criterion) || py_eq field criterion.

(** The condition of the loop of [filter_by_fields]; [and] stops at the
    first operand that is false. *)
Definition keeps (name_c url_c salary_c description_c requirements_c : pyval)
    (vacancy : Vacancy) : outcome bool :=
  if negb (field_matches name_c (name vacancy)) then mret false
  else if negb (field_matches url_c (_url vacancy)) then mret false
  else
    by_salary ← is_filter_by_salary salary_c (salary vacancy);
    if negb (truthy by_salary) then mret false
    else if negb (field_matches description_c (description vacancy)) then mret false
    else mret (field_matches requirements_c (requirements vacancy)).

Fixpoint filter_loop (cond : Vacancy → outcome bool) (vacancies filtered_vacancies : list Vacancy)
  : outcome (list Vacancy) :=
  match vacancies with
  | [] => mret filtered_vacancies
  | vacancy :: rest =>
      keep ← cond vacancy;
      filter_loop cond rest
        (if (keep : bool) then filtered_vacancies ++ [vacancy] else filtered_vacancies)
  end.

Definition filter_by_fields (vacancies : list Vacancy) (kwargs : gmap string pyval)
  : outcome (list Vacancy) :=
  let name_c := kwarg kwargs "name" in
  let url_c := kwarg kwargs "url" in
  let description_c := kwarg kwargs "description" in
  let requirements_c := kwarg kwargs "requirements" in
  salary_c ← salary_threshold (kwarg kwargs "salary");
  filtered_vacancies ←
    filter_loop (keeps name_c url_c salary_c description_c requirements_c) vacancies [];
  mret (match filtered_vacancies with
        | [] => vacancies
        | _ => filtered_vacancies
        end).

Definition serialized_vacancy (vacancy : Vacancy) : pyval :=
  PyDict [("name", name vacancy);
          ("url", _url vacancy);
          ("salary", salary vacancy);
          ("description", description vacancy);
          ("requirements", requirements vacancy)].

Definition serialized_vacancies (vacancies : list Vacancy) : list pyval :=
  serialized_vacancy <$> vacancies.

Definition salary_not_specified : string := "Зарплата не указана".

Definition __gt__ (self other : Vacancy) : outcome pyobj :=
  if negb (is_none (salary self)) && negb (is_none (salary other)) then
    mine ← py_getitem (salary self) "to";
    theirs ← py_getitem (salary other) "to";
    above ← py_compare Gt mine theirs;
    mret (if (above : bool) then Obj self else Obj other)
  else mret (Val (PyStr salary_not_specified)).

Definition __lt__ (self other : Vacancy) : outcome pyobj :=
  if negb (is_none (salary self)) && negb (is_none (salary other)) then
    mine ← py_getitem (salary self) "to";
    theirs ← py_getitem (salary other) "to";
    below ← py_compare Lt mine theirs;
    mret (if (below : bool) then Obj self else Obj other)
  else mret (Val (PyStr salary_not_specified)).

(** ** Storage: files and the operations on them

    An operation on a file takes the file's content and hands back an
    outcome together with the content it leaves behind, so that a failure
    half-way through a rewrite shows what was already written. *)

Definition io (S A : Type) : Type := S → outcome A * S.

#[global] Instance io_ret {S : Type} : MRet (io S) := fun A a s => (Return a, s).

#[global] Instance io_bind {S : Type} : MBind (io S) := fun A B k m s =>
  match m s with
  | (Return a, s') => k a s'
  | (Raise e, s') => (Raise e, s')
  end.

Definition lift {S A : Type} (m : outcome A) : io S A := fun s => (m, s).

(** [l[:stop]]: a negative bound counts from the end, and the bound is
    clamped to the length of the list. *)
Definition adjust_stop (len stop : Z) : Z :=
  if stop <? 0 then
    let stop' := stop + len in
    if stop' <? 0 then 0 else stop'
  else if len <=? stop then len
  else stop.

Definition slice_to {A : Type} (l : list A) (stop : Z) : list A :=
  take (Z.to_nat (adjust_stop (Z.of_nat (List.length l)) stop)) l.

(** [file_data.append(data)] and [file_data.remove(data)] on what
    [json.load] returned. *)
Definition py_append (file_data data : pyval) : outcome pyval :=
  match file_data with
  | PyList l => Return (PyList (l ++ [data]))
  | _ => Raise AttributeError
  end.

Fixpoint list_remove (data : pyval) (l : list pyval) : option (list pyval) :=
  match l with
  | [] => None
  | x :: l' => if py_eq x data then Some l' else (x ::.) <$> list_remove data l'
  end.

Definition py_remove (file_data data : pyval) : outcome pyval :=
  match file_data with
  | PyList l =>
      match list_remove data l with
      | Some l' => Return (PyList l')
      | None => Raise ValueError
      end
  | _ => Raise AttributeError
  end.

(** *** file_manager.py: [JsonFileManager]

    The file at [self.output] is absent, holds text that is no JSON
    document, or holds a document; [json.dump] followed by [json.load]
    gives the value back. *)
Inductive json_file : Type :=
| Absent
| Malformed
| Document (doc : pyval).

Module JsonFileManager.

(** [with open(self.output, 'r') as fp: json.load(fp)] *)
Definition load : io json_file pyval := fun file =>
  match file with
  | Absent => (Raise FileNotFoundError, file)
  | Malformed => (Raise JSONDecodeError, file)
  | Document doc => (Return doc, file)
  end.

(** [with open(self.output, 'w') as fp: json.dump(data, fp)] *)
Definition dump (data : pyval) : io json_file () := fun _ =>
  (Return (), Document data).

Definition save (data : list pyval) : io json_file () :=
  dump (PyList data).

Definition add_object (data : pyval) : io json_file () :=
  file_data ← load;
  file_data ← lift (py_append file_data data);
  dump file_data.

Definition delete_object (data : pyval) : io json_file () :=
  file_data ← load;
  file_data ← lift (py_remove file_data data);
  dump file_data.

End JsonFileManager.

(** *** file_manager.py: [CsvFileManager]

    The [csv] module is modelled at the level of lines of cells: a file is
    a list of lines, each a list of cell texts (quoting makes every text
    read back as written).  [DictReader] takes the first line as the field
    names, skips empty lines and turns the others into dictionaries;
    [DictWriter] turns a dictionary into a line of cells. *)

Abbreviation csv_line := (list string).

(** The content of the file at [self.output]; [None] when there is none. *)
Abbreviation csv_file := (option (list csv_line)).

(** A row as the writer sees it: a dictionary, whose entry under the key
    [None] (where [DictReader] puts the cells beyond the field names) is
    kept apart, or a value that is no dictionary. *)
Inductive rowdict : Type :=
| RowDict (fields : list (string * pyval)) (rest : option (list string))
| NotDict.

Definition rowdict_of (v : pyval) : rowdict :=
  match v with
  | PyDict d => RowDict d None
  | _ => NotDict
  end.

(** [d[k] = v] *)
Fixpoint dict_set {A : Type} (k : string) (v : A) (d : list (string * A))
  : list (string * A) :=
  match d with
  | [] => [(k, v)]
  | (k', v') :: d' =>
      if String.eqb k k' then (k, v) :: d' else (k', v') :: dict_set k v d'
  end.

(** [row == data] for a row that came out of the reader. *)
Definition row_eq (row : rowdict) (data : pyval) : bool :=
  match row with
  | RowDict d None => py_eq (PyDict d) data
  | _ => false
  end.

Module CsvFileManager.
Section Cells.

(** [str(v)], which the writer applies to a cell that is neither [None]
    nor text. *)
Variable py_str : pyval → string.

Definition cell_text (v : pyval) : string :=
  match v with
  | PyNone => ""
  | PyStr s => s
  | _ => py_str v
  end.

(** [DictReader.__next__] on one non-empty line. *)
Definition dict_of_row (fieldnames row : list string) : rowdict :=
  let d := foldl (fun d kv => dict_set kv.1 (PyStr kv.2) d) [] (zip fieldnames row) in
  let lf := List.length fieldnames in
  let lr := List.length row in
  if (lf <? lr)%nat then RowDict d (Some (drop lf row))
  else RowDict (foldl (fun d key => dict_set key PyNone d) d (drop lr fieldnames)) None.

Definition nonempty_line (line : csv_line) : bool :=
  match line with
  | [] => false
  | _ => true
  end.

(** [with open(self.output, 'r') ...: reader = csv.DictReader(csv_file)]
    and the rows of the reader that pass [keep]; with them,
    [reader.fieldnames] as it stands once the file is closed. *)
Definition read_rows (keep : rowdict → bool)
  : io csv_file (option (list string) * list rowdict) := fun file =>
  match file with
  | None => (Raise FileNotFoundError, file)
  | Some [] => (Return (None, []), file)
  | Some (fieldnames :: body) =>
      (Return (Some fieldnames,
               List.filter keep (dict_of_row fieldnames <$> List.filter nonempty_line body)),
       file)
  end.

(** [reader.fieldnames] after the file was closed: when no line was read,
    the reader turns to the closed file. *)
Definition fieldnames_of {S : Type} (cached : option (list string)) : io S (list string) :=
  match cached with
  | Some fieldnames => mret fieldnames
  | None => lift (Raise ValueError)
  end.

(** [DictWriter._dict_to_list] *)
Definition dict_to_list (fieldnames : list string) (row : rowdict) : outcome csv_line :=
  match row with
  | NotDict => Raise AttributeError
  | RowDict d rest =>
      if bool_decide (is_Some rest) || existsb (fun k => negb (bool_decide (k ∈ fieldnames))) (dict_keys d)
      then Raise ValueError
      else Return ((fun key => cell_text (default (PyStr "") (assoc_get key d))) <$> fieldnames)
  end.

Definition writeline (line : csv_line) : io (list csv_line) () := fun lines =>
  (Return (), lines ++ [line]).

Definition writeheader (fieldnames : list string) : io (list csv_line) () :=
  writeline fieldnames.

Fixpoint writerows (fieldnames : list string) (rows : list rowdict)
  : io (list csv_line) () :=
  match rows with
  | [] => mret ()
  | row :: rows' =>
      line ← lift (dict_to_list fieldnames row);
      _ ← writeline line;
      writerows fieldnames rows'
  end.

(** [csv_file.tell()]: zero as long as nothing was written. *)
Definition tell : io (list csv_line) nat := fun lines =>
  (Return (List.length lines), lines).

(** [with open(self.output, 'w') ...]: the file is created or emptied,
    and keeps what the body wrote, also when the body raises. *)
Definition open_w {A : Type} (body : io (list csv_line) A) : io csv_file A := fun _ =>
  let '(r, lines) := body [] in (r, Some lines).

Definition save (data : list pyval) : io csv_file () :=
  first ← lift (match data with
                | first :: _ => Return first
                | [] => Raise IndexError
                end);
  keys ← lift (match first with
               | PyDict d => Return (dict_keys d)
               | _ => Raise AttributeError
               end);
  open_w (_ ← writeheader keys;
          writerows keys (rowdict_of <$> data)).

Definition add_object (data : pyval) : io csv_file () :=
  '(cached, rows) ← read_rows (fun _ => true);
  fieldnames ← fieldnames_of cached;
  open_w (pos ← tell;
          _ ← (if Nat.eqb pos 0 then writeheader fieldnames else mret ());
          writerows fieldnames (rows ++ [rowdict_of data])).

Definition delete_object (data : pyval) : io csv_file () :=
  '(cached, rows) ← read_rows (fun row => negb (row_eq row data));
  open_w (fieldnames ← fieldnames_of cached;
          _ ← writeheader fieldnames;
          writerows fieldnames rows).

End Cells.
End CsvFileManager.

(** ** main.py *)

(** [int(input(...))] *)
Definition int_of_input (text : string) : outcome Z :=
  match int_of_text text with
  | Some z => Return z
  | None => Raise ValueError
  end.

(** [get_vacancies], from the payload the API returned and the six lines
    read from the console on. *)
Definition get_vacancies (hh_vacancies : pyval)
    (name_filter salary_filter description_filter requirements_filter : string)
    (top : string) : io json_file (list pyval) :=
  vacancies_list ← lift (json_to_object hh_vacancies);
  let filters : gmap string pyval :=
    {[ "name" := PyStr name_filter; "salary" := PyStr salary_filter;
       "description" := PyStr description_filter;
       "requirements" := PyStr requirements_filter ]} in
  filtered_vacancies ← lift (filter_by_fields vacancies_list filters);
  top_vacancies ← lift (int_of_input top);
  let top_filtered_vacancies := slice_to filtered_vacancies top_vacancies in
  let serialized := serialized_vacancies top_filtered_vacancies in
  _ ← JsonFileManager.save serialized;
  mret serialized.

(** * The specification's side

    The rules of the specification as definitions of their own, the typing
    of the data model, and a few sample records. *)

(** ** The salary criterion *)

(** The range rules in the words of the specification: a threshold is
    supplied when there is one, a bound is present when there is one.  A
    range with neither bound counts as not disclosed. *)
Definition range_rule (threshold : option Z) (vacancy_salary : option (option Z * option Z))
  : bool :=
  match threshold, vacancy_salary with
  | None, _ => true
  | Some _, None => false
  | Some T, Some (Some F, None) => bool_decide (F ≤ T)
  | Some T, Some (None, Some Y) => bool_decide (T ≤ Y)
  | Some T, Some (Some F, Some Y) => bool_decide (F ≤ T ≤ Y)
  | Some _, Some (None, None) => false
  end.

(** A number, or [None], as a Python value. *)
Definition of_number (n : option Z) : pyval :=
  match n with
  | Some z => PyInt z
  | None => PyNone
  end.

(** What the code takes for supplied or present: zero counts as absent. *)
Definition nonzero (n : option Z) : option Z :=
  match n with
  | Some z => if z =? 0 then None else Some z
  | None => None
  end.

(** A record's salary with the bounds [F] and [Y]: [None], or a dictionary
    whose entries under "from" and "to" are those. *)
Definition salary_with (bounds : option (option Z * option Z)) (vacancy_salary : pyval) : Prop :=
  match bounds with
  | None => vacancy_salary = PyNone
  | Some (F, Y) =>
      ∃ d, vacancy_salary = PyDict d ∧
           default PyNone (assoc_get "from" d) = of_number F ∧
           default PyNone (assoc_get "to" d) = of_number Y
  end.

Definition nonzero_bounds (bounds : option (option Z * option Z))
  : option (option Z * option Z) :=
  prod_map nonzero nonzero <$> bounds.

(** Whether a check let the record through. *)
Definition passes (m : outcome pyval) : bool :=
  match m with
  | Return r => truthy r
  | Raise _ => false
  end.

(** ** The filter engine *)

(** The salary of a record of the data model: [None], or a dictionary whose
    bounds are numbers or [None]. *)
Definition number_or_none (v : pyval) : bool :=
  match v with
  | PyNone | PyInt _ => true
  | _ => false
  end.

Definition salary_in_model (vacancy_salary : pyval) : bool :=
  match vacancy_salary with
  | PyNone => true
  | PyDict d =>
      number_or_none (default PyNone (assoc_get "from" d))
      && number_or_none (default PyNone (assoc_get "to" d))
  | _ => false
  end.

(** A criterion that [int()] accepts or rejects as a value: text, a number,
    or nothing. *)
Definition scalar (criterion : pyval) : bool :=
  match criterion with
  | PyList _ | PyDict _ => false
  | _ => true
  end.

(** The criteria in the words of the specification.  A text criterion that
    is absent or empty imposes nothing, a supplied one asks for equality. *)
Definition text_criterion (criterion : option pyval) (field : pyval) : bool :=
  match criterion with
  | Some c => if truthy c then py_eq field c else true
  | None => true
  end.

(** The salary threshold: text to be parsed, unparseable or absent text
    giving no threshold. *)
Definition threshold_of (criterion : option pyval) : option Z :=
  match criterion with
  | Some (PyStr text) => int_of_text text
  | Some (PyInt z) => Some z
  | Some (PyBool b) => Some (Z.b2z b)
  | _ => None
  end.

(** The value of the condition of the loop of [filter_by_fields] on a
    record, read off the code: the five operands of its [and], the third
    being the call of [is_filter_by_salary] on the parsed threshold. *)
Definition condition_holds (kwargs : gmap string pyval) (vacancy : Vacancy) : bool :=
  text_criterion (kwargs !! "name") (name vacancy)
  && text_criterion (kwargs !! "url") (_url vacancy)
  && passes (is_filter_by_salary (of_number (threshold_of (kwargs !! "salary"))) (salary vacancy))
  && text_criterion (kwargs !! "description") (description vacancy)
  && text_criterion (kwargs !! "requirements") (requirements vacancy).

(** The bounds of a record's salary: none for a salary that is absent,
    and each bound present when it is a number. *)
Definition bound_of (v : pyval) : option Z :=
  match v with
  | PyInt z => Some z
  | _ => None
  end.

Definition bounds_of (vacancy_salary : pyval) : option (option Z * option Z) :=
  match vacancy_salary with
  | PyDict d =>
      Some (bound_of (default PyNone (assoc_get "from" d)),
            bound_of (default PyNone (assoc_get "to" d)))
  | _ => None
  end.

(** A record satisfies the criteria, in the words of the specification,
    when it meets each supplied text criterion and its salary passes the
    range rules for the parsed threshold. *)
Definition satisfies (kwargs : gmap string pyval) (vacancy : Vacancy) : bool :=
  text_criterion (kwargs !! "name") (name vacancy)
  && text_criterion (kwargs !! "url") (_url vacancy)
  && range_rule (threshold_of (kwargs !! "salary")) (bounds_of (salary vacancy))
  && text_criterion (kwargs !! "description") (description vacancy)
  && text_criterion (kwargs !! "requirements") (requirements vacancy).

(** No bound of the salary is the number zero. *)
Definition bounds_off_zero (vacancy_salary : pyval) : bool :=
  match bounds_of vacancy_salary with
  | Some (F, Y) => bool_decide (F ≠ Some 0) && bool_decide (Y ≠ Some 0)
  | None => true
  end.

(** ** Construction from the payload *)

(** An item that carries a "snippet" object. *)
Definition has_snippet (item : pyval) : bool :=
  match item with
  | PyDict d =>
      match assoc_get "snippet" d with
      | Some (PyDict _) => true
      | _ => false
      end
  | _ => false
  end.

(** ** Tables *)

(** The dictionary the reader makes of a row. *)
Definition row_record (fieldnames row : list string) : list (string * pyval) :=
  zip fieldnames (PyStr <$> row).

Definition well_formed_row (fieldnames row : list string) : Prop :=
  List.length row = List.length fieldnames ∧ row ≠ [].

(** ** Values, records and rows

    A value as Python builds it: no dictionary in it has a key twice. *)
Fixpoint wf_pyval (v : pyval) : bool :=
  match v with
  | PyList l => forallb wf_pyval l
  | PyDict d => bool_decide (NoDup (dict_keys d)) && forallb (fun kv => wf_pyval kv.2) d
  | _ => true
  end.

(** The record [json_to_object] builds from an item: each field is what
    [get] finds under its key, [None] when the key is missing. *)
Definition record_of_item (item : pyval) : Vacancy :=
  match item with
  | PyDict d =>
      mkVacancy
        (default PyNone (assoc_get "name" d))
        (default PyNone (assoc_get "url" d))
        (default PyNone (assoc_get "salary" d))
        (default PyNone (assoc_get "description" d))
        (match assoc_get "snippet" d with
         | Some (PyDict snippet) => default PyNone (assoc_get "requirement" snippet)
         | _ => PyNone
         end)
  | _ => mkVacancy PyNone PyNone PyNone PyNone PyNone
  end.

(** An item of a payload of the data model: it carries a "snippet" object,
    and its salary is [None] or a range with numeric-or-[None] bounds. *)
Definition item_in_model (item : pyval) : bool :=
  has_snippet item && salary_in_model (salary (record_of_item item)).

(** The five criteria are all absent or empty. *)
Definition no_criteria (kwargs : gmap string pyval) : bool :=
  forallb (fun key => negb (truthy (kwarg kwargs key)))
    ["name"; "url"; "salary"; "description"; "requirements"].

(** A record the writer accepts under the field names: a dictionary whose
    keys are all among them. *)
Definition record_fits (fieldnames : list string) (v : pyval) : bool :=
  match v with
  | PyDict d => forallb (fun k => bool_decide (k ∈ fieldnames)) (dict_keys d)
  | _ => false
  end.

(** The line the writer makes of such a record: under each field name the
    text of the record's value, the empty text when the record has none. *)
Definition record_line (py_str : pyval → string) (fieldnames : list string) (v : pyval)
  : csv_line :=
  match v with
  | PyDict d =>
      (fun key => CsvFileManager.cell_text py_str (default (PyStr "") (assoc_get key d)))
        <$> fieldnames
  | _ => []
  end.

(** A record of texts over the field names: its keys are the field names,
    in their order, and each value is text. *)
Definition text_record (fieldnames : list string) (v : pyval) : Prop :=
  ∃ cells : list string,
    List.length cells = List.length fieldnames ∧ v = PyDict (row_record fieldnames cells).

(** ** Sample records *)

Definition junior : Vacancy :=
  mkVacancy (PyStr "junior") (PyStr "https://hh.ru/1")
    (PyDict [("from", PyInt 1000); ("to", PyNone)]) PyNone (PyStr "python").

Definition senior : Vacancy :=
  mkVacancy (PyStr "senior") (PyStr "https://hh.ru/2")
    (PyDict [("from", PyInt 3000); ("to", PyInt 5000)]) PyNone PyNone.

Definition from_zero : Vacancy :=
  mkVacancy (PyStr "intern") PyNone (PyDict [("from", PyInt 0); ("to", PyNone)]) PyNone PyNone.

Definition from_one : Vacancy :=
  mkVacancy (PyStr "trainee") PyNone (PyDict [("from", PyInt 1); ("to", PyNone)]) PyNone PyNone.

Definition upto_100 : Vacancy :=
  mkVacancy (PyStr "a") PyNone (PyDict [("to", PyInt 100)]) PyNone PyNone.

Definition upto_200 : Vacancy :=
  mkVacancy (PyStr "b") PyNone (PyDict [("to", PyInt 200)]) PyNone PyNone.

Definition undisclosed : Vacancy :=
  mkVacancy (PyStr "c") PyNone PyNone PyNone PyNone.

Definition open_ended : Vacancy :=
  mkVacancy (PyStr "d") PyNone (PyDict [("from", PyInt 100); ("to", PyNone)]) PyNone PyNone.

(** * Properties *)

(** ** The model on sample values *)

Example py_eq_dict_any_order :
  py_eq (PyDict [("from", PyInt 1); ("to", PyNone)]) (PyDict [("to", PyNone); ("from", PyInt 1)])
  = true.
Proof. reflexivity. Qed.

Example py_eq_bool_int : py_eq (PyBool true) (PyInt 1) = true.
Proof. reflexivity. Qed.

Example py_compare_text : py_compare Lt (PyStr "junior") (PyStr "senior") = Return true.
Proof. reflexivity. Qed.

Example py_compare_none : py_compare Gt PyNone (PyInt 200) = Raise TypeError.
Proof. reflexivity. Qed.

Example int_of_text_grouped : int_of_text " -1_000 " = Some (-1000).
Proof. reflexivity. Qed.

Example int_of_text_words : int_of_text "a lot" = None.
Proof. reflexivity. Qed.

Example int_of_text_other_script : int_of_text " ١٥٠٠" = Some 1500.
Proof. vm_compute. reflexivity. Qed.

Example int_of_text_separator :
  int_of_text (String (ascii_of_nat 28) "5") = None.
Proof. vm_compute. reflexivity. Qed.

Example salary_threshold_unparseable : salary_threshold (PyStr "a lot") = Return PyNone.
Proof. reflexivity. Qed.

Example csv_save_two :
  CsvFileManager.save (fun _ => "") [PyDict [("name", PyStr "dev"); ("url", PyNone)];
                                      PyDict [("url", PyStr "u"); ("name", PyStr "ops")]] None
  = (Return (), Some [["name"; "url"]; ["dev"; ""]; ["ops"; "u"]]).
Proof. reflexivity. Qed.

Example csv_save_stray_key :
  CsvFileManager.save (fun _ => "") [PyDict [("name", PyStr "dev")];
                                      PyDict [("title", PyStr "ops")]] None
  = (Raise ValueError, Some [["name"]; ["dev"]]).
Proof. reflexivity. Qed.

(** ** The salary criterion *)

Lemma truthy_of_number n : truthy (of_number n) = bool_decide (is_Some (nonzero n)).
Proof.
  destruct n as [z|]; simpl; [|done].
  by destruct (z =? 0).
Qed.

Lemma cmp_holds_le x y : cmp_holds Le (x ?= y) = bool_decide (x ≤ y).
Proof.
  destruct (Z.compare_spec x y); simpl; symmetry;
    first [apply bool_decide_eq_true; lia | apply bool_decide_eq_false; lia].
Qed.

Lemma cmp_holds_ge x y : cmp_holds Ge (x ?= y) = bool_decide (y ≤ x).
Proof.
  destruct (Z.compare_spec x y); simpl; symmetry;
    first [apply bool_decide_eq_true; lia | apply bool_decide_eq_false; lia].
Qed.

Lemma cmp_holds_lt x y : cmp_holds Lt (x ?= y) = bool_decide (x < y).
Proof.
  destruct (Z.compare_spec x y); simpl; symmetry;
    first [apply bool_decide_eq_true; lia | apply bool_decide_eq_false; lia].
Qed.

Lemma cmp_holds_gt x y : cmp_holds Gt (x ?= y) = bool_decide (y < x).
Proof.
  destruct (Z.compare_spec x y); simpl; symmetry;
    first [apply bool_decide_eq_true; lia | apply bool_decide_eq_false; lia].
Qed.

#[local] Arguments cmp_holds : simpl never.

Lemma salary_check_rule
    (threshold : option Z) (bounds : option (option Z * option Z)) (vacancy_salary : pyval) :
  salary_with bounds vacancy_salary →
  ∃ r, is_filter_by_salary (of_number threshold) vacancy_salary = Return r
       ∧ truthy r = range_rule (nonzero threshold) (nonzero_bounds bounds).
Proof.
  intros Hs. unfold is_filter_by_salary.
  rewrite truthy_of_number.
  destruct threshold as [T|]; simpl; [|by eexists].
  destruct (Z.eqb_spec T 0) as [->|HT]; simpl; [by eexists|].
  destruct bounds as [[F Y]|]; simpl in Hs.
  - destruct Hs as (d & -> & HF & HY). simpl. rewrite HF, HY, !truthy_of_number.
    destruct F as [F|], Y as [Y|]; simpl;
      repeat match goal with
             | |- context [?z =? 0] => destruct (Z.eqb_spec z 0) as [->|?]; simpl
             end;
      rewrite ?cmp_holds_ge, ?cmp_holds_le;
      try (eexists; split; [reflexivity|]; simpl; done).
    destruct (bool_decide_reflect (F ≤ T)) as [H1|H1]; simpl.
    + eexists; split; [reflexivity|]. simpl.
      apply bool_decide_ext. lia.
    + eexists; split; [reflexivity|]. simpl.
      symmetry. apply bool_decide_eq_false. lia.
  - subst. simpl. by eexists.
Qed.

(** What the salary check computes: for every threshold and every record
    salary that is [None] or a dictionary with numeric-or-[None] bounds, it
    returns, and the record passes exactly when the range rules say so once
    a zero threshold is read as not supplied and a zero bound as not
    present.  Off zero the check follows the rules. *)
Theorem is_filter_by_salary_range_rules
    (threshold : option Z) (bounds : option (option Z * option Z)) (vacancy_salary : pyval) :
  salary_with bounds vacancy_salary →
  ∃ r, is_filter_by_salary (of_number threshold) vacancy_salary = Return r
       ∧ truthy r = range_rule (nonzero threshold) (nonzero_bounds bounds).
Proof. apply salary_check_rule. Qed.

(** With a salary of 1000 and up, a threshold of 1500 passes. *)
Lemma is_filter_by_salary_range_rules_witness :
  ∃ r, is_filter_by_salary (PyInt 1500)
         (PyDict [("from", PyInt 1000); ("to", PyNone); ("currency", PyStr "RUR")]) = Return r
       ∧ truthy r = true.
Proof.
  apply (is_filter_by_salary_range_rules (Some 1500) (Some (Some 1000, None))).
  simpl. eexists. split; [reflexivity|]. split; reflexivity.
Defined.

(** C1: the claim does not hold of the code.  A salary with "from" 0 and
    no "to" has only its lower bound present, and the rule lets the
    threshold 5 through (5 >= 0); the check tests the bound by its truth
    value, takes none of its three branches and returns [None], not the
    [bool] its docstring announces, and the record is dropped. *)
Lemma is_filter_by_salary_zero_bound :
  salary_with (Some (Some 0, None)) (PyDict [("from", PyInt 0); ("to", PyNone)])
  ∧ range_rule (Some 5) (Some (Some 0, None)) = true
  ∧ is_filter_by_salary (PyInt 5) (PyDict [("from", PyInt 0); ("to", PyNone)]) = Return PyNone
  ∧ passes (is_filter_by_salary (PyInt 5) (PyDict [("from", PyInt 0); ("to", PyNone)])) = false.
Proof.
  split; [|done].
  eexists. split; [reflexivity|]. split; reflexivity.
Qed.

(** ** The filter engine *)

Lemma number_or_none_inv v : number_or_none v = true → ∃ n, v = of_number n.
Proof.
  destruct v; try discriminate; intros _.
  - by exists None.
  - by eexists (Some _).
Qed.

Lemma salary_in_model_bounds s : salary_in_model s = true → ∃ bounds, salary_with bounds s.
Proof.
  destruct s as [| | | | |d]; try discriminate; simpl.
  - intros _. by exists None.
  - intros [[F HF]%number_or_none_inv [Y HY]%number_or_none_inv]%andb_prop.
    exists (Some (F, Y)). simpl. eauto.
Qed.

Lemma salary_check_returns threshold s :
  salary_in_model s = true →
  ∃ r, is_filter_by_salary (of_number threshold) s = Return r.
Proof.
  intros [bounds Hb]%salary_in_model_bounds.
  destruct (salary_check_rule threshold bounds s Hb) as (r & Hr & _). eauto.
Qed.

Lemma salary_check_no_threshold T s :
  truthy T = false → is_filter_by_salary T s = Return (PyBool true).
Proof. intros H. unfold is_filter_by_salary. by rewrite H. Qed.

Lemma field_matches_criterion kwargs key field :
  field_matches (kwarg kwargs key) field = text_criterion (kwargs !! key) field.
Proof.
  unfold field_matches, kwarg, text_criterion.
  destruct (kwargs !! key) as [c|]; simpl; [|done].
  by destruct (truthy c).
Qed.

(** The threshold the code computes checks as the parsed one does. *)
Lemma salary_threshold_scalar kwargs :
  scalar (kwarg kwargs "salary") = true →
  ∃ T n, salary_threshold (kwarg kwargs "salary") = Return T
       ∧ T = of_number n
       ∧ ∀ s, is_filter_by_salary T s
              = is_filter_by_salary (of_number (threshold_of (kwargs !! "salary"))) s.
Proof.
  unfold kwarg, salary_threshold.
  destruct (kwargs !! "salary") as [[|b|z|text|l|d]|]; simpl; try discriminate; intros _.
  - by exists PyNone, None.
  - destruct b; simpl.
    + by exists (PyInt 1), (Some 1).
    + exists PyNone, None. split; [done|]. split; [done|]. intros s.
      by rewrite !salary_check_no_threshold.
  - destruct (Z.eqb_spec z 0) as [->|Hz]; simpl.
    + exists PyNone, None. split; [done|]. split; [done|]. intros s.
      by rewrite !salary_check_no_threshold.
    + by exists (PyInt z), (Some z).
  - destruct (String.eqb_spec text "") as [->|Ht]; simpl.
    + by exists PyNone, None.
    + destruct (int_of_text text) as [z|]; simpl.
      * by exists (PyInt z), (Some z).
      * by exists PyNone, None.
  - by exists PyNone, None.
Qed.

Lemma filter_loop_ext cond1 cond2 vacancies filtered :
  (∀ v, v ∈ vacancies → cond1 v = cond2 v) →
  filter_loop cond1 vacancies filtered = filter_loop cond2 vacancies filtered.
Proof.
  revert filtered. induction vacancies as [|v vs IH]; intros filtered H; [done|].
  simpl. rewrite (H v) by apply list_elem_of_here.
  destruct (cond2 v) as [keep|e]; simpl; [|done].
  apply IH. intros w Hw. apply H. by apply list_elem_of_further.
Qed.

Lemma filter_loop_pure (keep : Vacancy → bool) vacancies filtered :
  filter_loop (fun v => Return (keep v)) vacancies filtered
  = Return (filtered ++ List.filter keep vacancies).
Proof.
  revert filtered. induction vacancies as [|v vs IH]; intros filtered; simpl.
  - by rewrite app_nil_r.
  - rewrite IH. destruct (keep v); [|done].
    by rewrite <- app_assoc.
Qed.

Lemma keeps_condition kwargs T vacancy :
  (∀ s, is_filter_by_salary T s
        = is_filter_by_salary (of_number (threshold_of (kwargs !! "salary"))) s) →
  salary_in_model (salary vacancy) = true →
  keeps (kwarg kwargs "name") (kwarg kwargs "url") T
        (kwarg kwargs "description") (kwarg kwargs "requirements") vacancy
  = Return (condition_holds kwargs vacancy).
Proof.
  intros HT Hs. unfold keeps, condition_holds.
  rewrite !field_matches_criterion, HT.
  destruct (salary_check_returns (threshold_of (kwargs !! "salary")) _ Hs) as [r ->].
  simpl.
  destruct (text_criterion (kwargs !! "name") _); simpl; [|done].
  destruct (text_criterion (kwargs !! "url") _); simpl; [|done].
  destruct (truthy r); simpl; [|done].
  by destruct (text_criterion (kwargs !! "description") _).
Qed.

Lemma filter_by_fields_kept (vacancies : list Vacancy) (kwargs : gmap string pyval) :
  scalar (kwarg kwargs "salary") = true →
  Forall (fun v => salary_in_model (salary v) = true) vacancies →
  filter_by_fields vacancies kwargs
  = Return (match List.filter (condition_holds kwargs) vacancies with
            | [] => vacancies
            | kept => kept
            end).
Proof.
  intros Hc Hv. unfold filter_by_fields.
  destruct (salary_threshold_scalar kwargs Hc) as (T & n & -> & _ & HT). simpl.
  rewrite (filter_loop_ext _ (fun v => Return (condition_holds kwargs v))).
  - rewrite filter_loop_pure. simpl. by destruct (List.filter _ _).
  - intros v Hin. apply keeps_condition; [done|].
    rewrite Forall_forall in Hv. by apply Hv.
Qed.

Lemma salary_with_bounds_of s : salary_in_model s = true → salary_with (bounds_of s) s.
Proof.
  destruct s as [| | | | |d]; try discriminate; simpl; [done|].
  intros [HF HY]%andb_prop. exists d. split; [done|].
  split; [destruct (default PyNone (assoc_get "from" d)) | destruct (default PyNone (assoc_get "to" d))];
    done.
Qed.

(** Off zero the salary check is the range rule. *)
Lemma salary_check_off_zero (threshold : option Z) (s : pyval) :
  salary_in_model s = true →
  threshold ≠ Some 0 →
  bounds_off_zero s = true →
  passes (is_filter_by_salary (of_number threshold) s) = range_rule threshold (bounds_of s).
Proof.
  intros Hs HT Hz.
  destruct (salary_check_rule threshold (bounds_of s) s (salary_with_bounds_of s Hs))
    as (r & -> & Hr).
  simpl. rewrite Hr. f_equal.
  - destruct threshold as [T|]; simpl; [|done].
    destruct (Z.eqb_spec T 0) as [->|_]; [by destruct HT | done].
  - unfold bounds_off_zero in Hz. destruct (bounds_of s) as [[F Y]|]; simpl; [|done].
    apply andb_prop in Hz as [HF%bool_decide_eq_true HY%bool_decide_eq_true].
    do 2 f_equal.
    + destruct F as [F|]; simpl; [|done].
      destruct (Z.eqb_spec F 0) as [->|_]; [by destruct HF | done].
    + destruct Y as [Y|]; simpl; [|done].
      destruct (Z.eqb_spec Y 0) as [->|_]; [by destruct HY | done].
Qed.

Lemma filter_ext_Forall {A : Type} (f g : A → bool) (l : list A) :
  Forall (fun x => f x = g x) l → List.filter f l = List.filter g l.
Proof.
  induction 1 as [|x l Hx _ IH]; simpl; [done|]. by rewrite Hx, IH.
Qed.

(** What the filter computes off zero: on records of the data model whose
    bounds are not zero and a salary criterion that is text, a number or
    absent, and not zero, [filter_by_fields] returns the records that
    satisfy every supplied criterion, in their order, and the whole
    collection unchanged when no record does. *)
Lemma filter_by_fields_off_zero (vacancies : list Vacancy) (kwargs : gmap string pyval) :
  scalar (kwarg kwargs "salary") = true →
  threshold_of (kwargs !! "salary") ≠ Some 0 →
  Forall (fun v => salary_in_model (salary v) = true ∧ bounds_off_zero (salary v) = true)
    vacancies →
  filter_by_fields vacancies kwargs
  = Return (match List.filter (satisfies kwargs) vacancies with
            | [] => vacancies
            | kept => kept
            end).
Proof.
  intros Hc HT Hv. rewrite filter_by_fields_kept; [|done|].
  - rewrite (filter_ext_Forall (condition_holds kwargs) (satisfies kwargs)); [done|].
    eapply Forall_impl; [exact Hv|]. intros v [Hs Hz]. simpl.
    unfold condition_holds, satisfies. by rewrite salary_check_off_zero.
  - eapply Forall_impl; [exact Hv|]. by intros v [Hs _].
Qed.

(** No record is called "lead": the two records come back. *)
Lemma filter_by_fields_off_zero_witness :
  filter_by_fields [junior; senior] {[ "name" := PyStr "lead"; "salary" := PyStr "1500" ]}
  = Return [junior; senior].
Proof.
  etransitivity.
  - apply (filter_by_fields_off_zero [junior; senior]
             {[ "name" := PyStr "lead"; "salary" := PyStr "1500" ]}).
    + vm_compute. reflexivity.
    + vm_compute. discriminate.
    + repeat constructor.
  - vm_compute. reflexivity.
Defined.

(** C5: the claim does not hold of the code.  Both records satisfy the
    salary criterion "5" by the range rules (only "from" present, and
    5 >= 0, 5 >= 1), so both should come back; the salary check drops the
    record whose "from" is 0 and [filter_by_fields] returns the other one
    alone. *)
Theorem filter_by_fields_zero_bound :
  satisfies {[ "salary" := PyStr "5" ]} from_zero = true
  ∧ satisfies {[ "salary" := PyStr "5" ]} from_one = true
  ∧ filter_by_fields [from_zero; from_one] {[ "salary" := PyStr "5" ]} = Return [from_one].
Proof. repeat split; vm_compute; reflexivity. Qed.

Example filter_by_fields_salary :
  filter_by_fields [junior; senior] {[ "salary" := PyStr "1500" ]} = Return [junior].
Proof. reflexivity. Qed.

(** C10: the salary criterion "0" parses to the integer 0, the salary check
    then lets every record through whatever its salary, and the filter
    gives what it gives with no salary criterion at all. *)
Theorem filter_by_fields_zero_salary (vacancies : list Vacancy) (kwargs : gmap string pyval) :
  salary_threshold (PyStr "0") = Return (PyInt 0)
  ∧ (∀ vacancy_salary, is_filter_by_salary (PyInt 0) vacancy_salary = Return (PyBool true))
  ∧ filter_by_fields vacancies (<["salary" := PyStr "0"]> kwargs)
    = filter_by_fields vacancies (delete "salary" kwargs).
Proof.
  split; [reflexivity|]. split; [done|].
  unfold filter_by_fields, kwarg.
  rewrite lookup_insert_eq, lookup_delete_eq.
  rewrite !lookup_insert_ne, !lookup_delete_ne by done.
  change (salary_threshold (default PyNone (Some (PyStr "0")))) with (@Return pyval (PyInt 0)).
  change (salary_threshold (default PyNone None)) with (@Return pyval PyNone).
  simpl. f_equal.
Qed.

(** ** Serialization *)

(** C9: the mapping of a record has the five keys name, url, salary,
    description, requirements, in this order and no other, each holding the
    field of the record; the plural form maps the records one by one.  Both
    are functions on every record, whatever its fields hold. *)
Theorem serialized_vacancy_five_keys (vacancy : Vacancy) (vacancies : list Vacancy) :
  (∃ d, serialized_vacancy vacancy = PyDict d
        ∧ dict_keys d = ["name"; "url"; "salary"; "description"; "requirements"]
        ∧ assoc_get "name" d = Some (name vacancy)
        ∧ assoc_get "url" d = Some (_url vacancy)
        ∧ assoc_get "salary" d = Some (salary vacancy)
        ∧ assoc_get "description" d = Some (description vacancy)
        ∧ assoc_get "requirements" d = Some (requirements vacancy))
  ∧ List.length (serialized_vacancies vacancies) = List.length vacancies
  ∧ (∀ i, serialized_vacancies vacancies !! i = serialized_vacancy <$> vacancies !! i).
Proof.
  split; [|split].
  - eexists. split; [reflexivity|]. repeat split.
  - unfold serialized_vacancies. apply length_fmap.
  - intros i. unfold serialized_vacancies. apply list_lookup_fmap.
Qed.

(** ** Comparison by salary *)

(** What the comparisons compute: when either salary is [None], [>] and
    [<] both give the text "salary not specified"; when both records have a
    salary whose "to" is a number, [>] gives the record with the larger
    "to" and [<] the one with the smaller, the second operand on a tie. *)
Theorem salary_comparison (a b : Vacancy) :
  (salary a = PyNone ∨ salary b = PyNone →
     __gt__ a b = Return (Val (PyStr salary_not_specified))
     ∧ __lt__ a b = Return (Val (PyStr salary_not_specified)))
  ∧ (∀ x y : Z,
       salary a ≠ PyNone → salary b ≠ PyNone →
       py_getitem (salary a) "to" = Return (PyInt x) →
       py_getitem (salary b) "to" = Return (PyInt y) →
       __gt__ a b = Return (Obj (if bool_decide (y < x) then a else b))
       ∧ __lt__ a b = Return (Obj (if bool_decide (x < y) then a else b))
       ∧ (∃ r, __gt__ a b = Return (Obj r)
               ∧ py_getitem (salary r) "to" = Return (PyInt (Z.max x y)))
       ∧ (∃ r, __lt__ a b = Return (Obj r)
               ∧ py_getitem (salary r) "to" = Return (PyInt (Z.min x y)))).
Proof.
  split.
  - unfold __gt__, __lt__. intros [-> | ->]; simpl; [done|].
    by rewrite andb_false_r.
  - intros x y Ha Hb Hx Hy.
    assert (Hgt : __gt__ a b = Return (Obj (if bool_decide (y < x) then a else b))).
    { unfold __gt__. rewrite Hx, Hy.
      destruct (salary a), (salary b); try done; simpl.
      rewrite cmp_holds_gt. by destruct (bool_decide (y < x)). }
    assert (Hlt : __lt__ a b = Return (Obj (if bool_decide (x < y) then a else b))).
    { unfold __lt__. rewrite Hx, Hy.
      destruct (salary a), (salary b); try done; simpl.
      rewrite cmp_holds_lt. by destruct (bool_decide (x < y)). }
    split; [done|]. split; [done|]. split.
    + eexists. split; [exact Hgt|].
      destruct (bool_decide_reflect (y < x)).
      * rewrite Z.max_l by lia. exact Hx.
      * rewrite Z.max_r by lia. exact Hy.
    + eexists. split; [exact Hlt|].
      destruct (bool_decide_reflect (x < y)).
      * rewrite Z.min_l by lia. exact Hx.
      * rewrite Z.min_r by lia. exact Hy.
Qed.

(** With "to" 100 against "to" 200, [>] picks the 200 record and [<] the
    100 one; against a record without salary both give the sentinel. *)
Lemma salary_comparison_witness :
  (__gt__ upto_100 upto_200 = Return (Obj upto_200)
   ∧ __lt__ upto_100 upto_200 = Return (Obj upto_100))
  ∧ (__gt__ upto_100 undisclosed = Return (Val (PyStr salary_not_specified))
     ∧ __lt__ upto_100 undisclosed = Return (Val (PyStr salary_not_specified))).
Proof.
  split.
  - destruct (proj2 (salary_comparison upto_100 upto_200) 100 200) as (Hgt & Hlt & _);
      [discriminate | discriminate | reflexivity | reflexivity |].
    split; [exact Hgt | exact Hlt].
  - apply (proj1 (salary_comparison upto_100 undisclosed)). right. reflexivity.
Defined.

(** C6: the claim does not hold of the code.  Both records have a salary,
    but the "to" of the first is [None] (a salary "from 100"): the
    comparisons guard a salary that is [None] and not a bound that is, and
    [None > 200] raises [TypeError] instead of returning one of the
    records. *)
Lemma salary_comparison_open_ended :
  salary open_ended ≠ PyNone ∧ salary upto_200 ≠ PyNone
  ∧ __gt__ open_ended upto_200 = Raise TypeError
  ∧ __lt__ open_ended upto_200 = Raise TypeError.
Proof. repeat split; discriminate. Qed.

(** ** Truncation *)

(** C3 (as amended): the truncation gives a prefix of the sequence: the
    first [N] records for a count [N] from zero to the length; a count of
    at least the length gives the whole sequence, zero gives the empty
    one, and a negative count [N] leaves off the last [-N] records (so the
    empty sequence only from [-N] at least the length on). *)
Theorem slice_to_prefix {A : Type} (l : list A) (N : Z) :
  slice_to l N `prefix_of` l
  ∧ (0 ≤ N ≤ Z.of_nat (List.length l) → slice_to l N = take (Z.to_nat N) l)
  ∧ (Z.of_nat (List.length l) ≤ N → slice_to l N = l)
  ∧ (N = 0 → slice_to l N = [])
  ∧ (N < 0 → slice_to l N = take (List.length l - Z.to_nat (- N)) l)
  ∧ (N ≤ - Z.of_nat (List.length l) → slice_to l N = []).
Proof.
  unfold slice_to. split; [apply prefix_take|].
  split; [|split; [|split; [|split]]]; intros H; unfold adjust_stop.
  - destruct (Z.ltb_spec N 0); [lia|].
    destruct (Z.leb_spec (Z.of_nat (List.length l)) N); [|done].
    by replace N with (Z.of_nat (List.length l)) by lia.
  - destruct (Z.ltb_spec N 0); [lia|].
    destruct (Z.leb_spec (Z.of_nat (List.length l)) N); [|lia].
    rewrite Nat2Z.id. apply firstn_all.
  - subst N. simpl.
    destruct (Z.leb_spec (Z.of_nat (List.length l)) 0); [|done].
    destruct l; [done|simpl in *; lia].
  - destruct (Z.ltb_spec N 0); [|lia].
    destruct (Z.ltb_spec (N + Z.of_nat (List.length l)) 0).
    + simpl. replace (List.length l - Z.to_nat (- N))%nat with 0%nat by lia. done.
    + f_equal. lia.
  - destruct (Z.ltb_spec N 0).
    + destruct (Z.ltb_spec (N + Z.of_nat (List.length l)) 0); [done|].
      replace (N + Z.of_nat (List.length l)) with 0 by lia. done.
    + destruct l; [|simpl in *; lia].
      apply take_nil.
Qed.

Lemma slice_to_prefix_witness :
  slice_to [junior; senior; open_ended] 2 = [junior; senior]
  ∧ slice_to [junior; senior] 5 = [junior; senior]
  ∧ slice_to [junior; senior] 0 = []
  ∧ slice_to [junior; senior] (-1) = take 1 [junior; senior]
  ∧ slice_to [junior; senior] (-2) = [].
Proof.
  destruct (slice_to_prefix [junior; senior; open_ended] 2) as (_ & H2' & _).
  destruct (slice_to_prefix [junior; senior] 5) as (_ & _ & H5 & _).
  destruct (slice_to_prefix [junior; senior] 0) as (_ & _ & _ & H0 & _).
  destruct (slice_to_prefix [junior; senior] (-1)) as (_ & _ & _ & _ & H1 & _).
  destruct (slice_to_prefix [junior; senior] (-2)) as (_ & _ & _ & _ & _ & H2).
  split; [apply H2'; simpl; lia|].
  split; [apply H5; simpl; lia|].
  split; [apply H0; reflexivity|].
  split; [apply H1; lia|].
  apply H2; simpl; lia.
Defined.

(** C3 (as stated) fails: the count -1 does not give the empty sequence,
    it leaves off the last record. *)
Lemma slice_to_negative :
  slice_to [junior; senior] (-1) = [junior] ∧ slice_to [junior; senior] (-1) ≠ [].
Proof. split; [reflexivity | discriminate]. Qed.

(** The truncation is the one [get_vacancies] performs between the filter
    and the serialization: with a payload that converts, criteria that
    filter and a count that parses, the run saves and returns the mappings
    of the truncated sequence. *)
Lemma get_vacancies_truncates (hh_vacancies : pyval)
    (name_filter salary_filter description_filter requirements_filter top : string)
    (vacancies_list filtered_vacancies : list Vacancy) (N : Z) (file : json_file) :
  json_to_object hh_vacancies = Return vacancies_list →
  filter_by_fields vacancies_list
    {[ "name" := PyStr name_filter; "salary" := PyStr salary_filter;
       "description" := PyStr description_filter;
       "requirements" := PyStr requirements_filter ]} = Return filtered_vacancies →
  int_of_text top = Some N →
  get_vacancies hh_vacancies name_filter salary_filter description_filter
    requirements_filter top file
  = (Return (serialized_vacancies (slice_to filtered_vacancies N)),
     Document (PyList (serialized_vacancies (slice_to filtered_vacancies N)))).
Proof.
  intros Hconv Hfilter Htop. unfold get_vacancies, int_of_input.
  unfold mbind at 1, io_bind at 1, lift at 1. rewrite Hconv.
  unfold mbind at 1, io_bind at 1, lift at 1. rewrite Hfilter.
  unfold mbind at 1, io_bind at 1, lift at 1. rewrite Htop.
  reflexivity.
Qed.

(** ** Construction from the payload *)

Lemma vacancy_of_item_snippet item :
  has_snippet item = true → ∃ v, vacancy_of_item item = Return v.
Proof.
  destruct item as [| | | | |d]; try discriminate. simpl.
  unfold vacancy_of_item. simpl.
  destruct (assoc_get "snippet" d) as [[| | | | |sn]|]; try discriminate.
  intros _. simpl. by eexists.
Qed.

Lemma mapM_returns {A B : Type} (f : A → outcome B) (l : list A) :
  Forall (fun x => ∃ y, f x = Return y) l →
  ∃ k, mapM f l = Return k ∧ Forall2 (fun x y => f x = Return y) l k.
Proof.
  induction 1 as [|x l [y Hy] _ (k & Hk & Hall)]; simpl.
  - exists []. split; [done|constructor].
  - exists (y :: k). rewrite Hy. simpl. rewrite Hk. simpl.
    split; [done|]. by constructor.
Qed.

(** What does hold of [json_to_object]: when every item carries a
    "snippet" object, there is one record per item, in the order of the
    items, also when the other keys are missing. *)
Lemma json_to_object_with_snippets (payload : list (string * pyval)) (items : list pyval) :
  assoc_get "items" payload = Some (PyList items) →
  Forall (fun item => has_snippet item = true) items →
  ∃ vacancies, json_to_object (PyDict payload) = Return vacancies
               ∧ List.length vacancies = List.length items
               ∧ Forall2 (fun item v => vacancy_of_item item = Return v) items vacancies.
Proof.
  intros Hitems Hall. unfold json_to_object. simpl. rewrite Hitems. simpl.
  destruct (mapM_returns vacancy_of_item items) as (k & Hk & H2).
  - eapply Forall_impl; [exact Hall|]. intros item. apply vacancy_of_item_snippet.
  - exists k. split; [done|]. split; [|done].
    symmetry. by eapply Forall2_length.
Qed.

(** An item without the key "snippet" stops the conversion. *)
Lemma json_to_object_no_snippet (payload d : list (string * pyval)) (rest : list pyval) :
  assoc_get "items" payload = Some (PyList (PyDict d :: rest)) →
  assoc_get "snippet" d = None →
  json_to_object (PyDict payload) = Raise AttributeError.
Proof.
  intros Hitems Hd. unfold json_to_object. simpl. rewrite Hitems. simpl.
  unfold vacancy_of_item. simpl. by rewrite Hd.
Qed.

(** C2: the claim does not hold of the code.  On a payload whose one item
    has a name and a salary but no "snippet", [json_to_object] raises
    [AttributeError] ([vacancy.get("snippet")] is [None], which has no
    [get]) instead of building a record without requirements. *)
Theorem json_to_object_missing_snippet :
  json_to_object
    (PyDict [("items", PyList [PyDict [("name", PyStr "dev"); ("salary", PyNone)]])])
  = Raise AttributeError.
Proof. reflexivity. Qed.

(** ** The structured-record backend *)

(** C7: whatever the file held, after [save([r1, r2])] loading the file
    gives [[r1, r2]]; [add_object(r3)] then succeeds and loading gives
    [[r1, r2, r3]].  In general [add_object] on a file that holds a list
    writes back that list with the one record added at the end. *)
Theorem json_save_add_round_trip (r1 r2 r3 : pyval) (file : json_file) :
  let saved := JsonFileManager.save [r1; r2] file in
  let added := JsonFileManager.add_object r3 saved.2 in
  saved.1 = Return ()
  ∧ (JsonFileManager.load saved.2).1 = Return (PyList [r1; r2])
  ∧ added.1 = Return ()
  ∧ (JsonFileManager.load added.2).1 = Return (PyList [r1; r2; r3])
  ∧ (∀ (records : list pyval) (r : pyval),
       JsonFileManager.add_object r (Document (PyList records))
       = (Return (), Document (PyList (records ++ [r])))).
Proof. repeat split. Qed.

(** [list.remove] takes out the first item equal to the record and keeps
    every later one, equal or not. *)
Lemma list_remove_first (data x : pyval) (before after : list pyval) :
  Forall (fun y => py_eq y data = false) before →
  py_eq x data = true →
  list_remove data (before ++ x :: after) = Some (before ++ after).
Proof.
  intros Hbefore Hx. induction Hbefore as [|y before Hy _ IH]; simpl.
  - by rewrite Hx.
  - by rewrite Hy, IH.
Qed.

Lemma list_remove_missing (data : pyval) (l : list pyval) :
  Forall (fun y => py_eq y data = false) l → list_remove data l = None.
Proof.
  induction 1 as [|y l Hy _ IH]; simpl; [done|].
  by rewrite Hy, IH.
Qed.

Lemma json_delete_object_first (data x : pyval) (before after : list pyval) :
  Forall (fun y => py_eq y data = false) before →
  py_eq x data = true →
  JsonFileManager.delete_object data (Document (PyList (before ++ x :: after)))
  = (Return (), Document (PyList (before ++ after))).
Proof.
  intros Hbefore Hx. unfold JsonFileManager.delete_object.
  unfold mbind, io_bind, lift, py_remove. simpl.
  by rewrite (list_remove_first _ _ _ _ Hbefore Hx).
Qed.

(** C4: the claim does not hold of the structured-record backend.  On a
    file that holds the same record twice, [delete_object] takes out the
    first occurrence only ([list.remove]) and writes the other one back; on
    a file without the record it raises [ValueError] and writes nothing. *)
Theorem json_delete_object_first_only :
  let r := PyDict [("name", PyStr "dev")] in
  let other := PyDict [("name", PyStr "ops")] in
  JsonFileManager.delete_object r (Document (PyList [r; other; r]))
  = (Return (), Document (PyList [other; r]))
  ∧ JsonFileManager.delete_object r (Document (PyList [other]))
    = (Raise ValueError, Document (PyList [other])).
Proof. split; reflexivity. Qed.

(** ** The tabular backend *)

(** The writer only adds lines to what the file already holds. *)
Lemma writerows_extends (py_str : pyval → string) (fieldnames : list string)
    (rows : list rowdict) (lines : list csv_line) :
  ∃ r more, CsvFileManager.writerows py_str fieldnames rows lines = (r, lines ++ more).
Proof.
  revert lines. induction rows as [|row rows IH]; intros lines; simpl.
  - exists (Return ()), []. by rewrite app_nil_r.
  - unfold mbind, io_bind, lift. simpl.
    destruct (CsvFileManager.dict_to_list py_str fieldnames row) as [line|e]; simpl.
    + destruct (IH (lines ++ [line])) as (r & more & ->).
      exists r, (line :: more). by rewrite <- app_assoc.
    + exists (Raise e), []. by rewrite app_nil_r.
Qed.

(** C8: [save] of no record raises [IndexError] and leaves the file as it
    was; [save] of a sequence that starts with a record writes a file whose
    first line, the header, is the keys of that record. *)
Theorem csv_save_header (py_str : pyval → string) (file : csv_file) :
  CsvFileManager.save py_str [] file = (Raise IndexError, file)
  ∧ (∀ (first : list (string * pyval)) (others : list pyval),
       ∃ r lines,
         CsvFileManager.save py_str (PyDict first :: others) file
         = (r, Some (dict_keys first :: lines))).
Proof.
  split; [reflexivity|].
  intros first others. unfold CsvFileManager.save.
  unfold mbind, io_bind, lift, CsvFileManager.open_w,
    CsvFileManager.writeheader, CsvFileManager.writeline.
  cbn [app].
  destruct (writerows_extends py_str (dict_keys first)
              (rowdict_of <$> PyDict first :: others) [dict_keys first])
    as (r & more & ->).
  by exists r, more.
Qed.

(** *** Deleting from a table

    The tabular [delete_object] does take out every row equal to the
    record.  A table is well formed when its field names are distinct and
    each of its rows has one cell per field name, and at least one. *)

Lemma dict_set_fresh {A : Type} (k : string) (v : A) (d : list (string * A)) :
  k ∉ dict_keys d → dict_set k v d = d ++ [(k, v)].
Proof.
  induction d as [|[k' v'] d IH]; simpl; [done|].
  intros Hk. destruct (String.eqb_spec k k') as [->|Hne].
  - exfalso. apply Hk. apply list_elem_of_here.
  - f_equal. apply IH. intros Hin. apply Hk. by apply list_elem_of_further.
Qed.

Lemma dict_keys_row_record fieldnames row :
  dict_keys (row_record fieldnames row) ⊆ fieldnames.
Proof.
  unfold row_record, dict_keys. revert row.
  induction fieldnames as [|k ks IH]; intros [|c cs]; simpl;
    try apply list_subseteq_nil.
  intros x [->|Hx]%elem_of_cons.
  - apply list_elem_of_here.
  - apply list_elem_of_further. by apply (IH cs).
Qed.

Lemma foldl_dict_set_row (acc : list (string * pyval)) fieldnames row :
  NoDup fieldnames →
  (∀ k, k ∈ fieldnames → k ∉ dict_keys acc) →
  foldl (fun d kv => dict_set kv.1 (PyStr kv.2) d) acc (zip fieldnames row)
  = acc ++ row_record fieldnames row.
Proof.
  unfold row_record. revert acc row.
  induction fieldnames as [|k ks IH]; intros acc [|c cs] Hnd Hfresh; simpl;
    try by rewrite app_nil_r.
  apply NoDup_cons in Hnd as [Hk Hnd].
  rewrite dict_set_fresh by (apply Hfresh, list_elem_of_here).
  rewrite IH; [by rewrite <- app_assoc | done |].
  intros k' Hk'. unfold dict_keys. rewrite fmap_app. simpl.
  intros [Hin|Hin]%elem_of_app.
  - by apply (Hfresh k'); [apply list_elem_of_further|].
  - apply list_elem_of_singleton in Hin. by subst.
Qed.

Section Table.

Variable py_str : pyval → string.

Lemma dict_of_row_well_formed fieldnames row :
  NoDup fieldnames →
  List.length row = List.length fieldnames →
  CsvFileManager.dict_of_row fieldnames row = RowDict (row_record fieldnames row) None.
Proof.
  intros Hnd Hlen. unfold CsvFileManager.dict_of_row.
  rewrite Hlen, Nat.ltb_irrefl, drop_all. simpl.
  f_equal. rewrite foldl_dict_set_row; [done | done |].
  intros k _. apply not_elem_of_nil.
Qed.

Lemma cells_of_row_record fieldnames row :
  NoDup fieldnames →
  List.length row = List.length fieldnames →
  (fun key => CsvFileManager.cell_text py_str
                (default (PyStr "") (assoc_get key (row_record fieldnames row))))
    <$> fieldnames = row.
Proof.
  unfold row_record. revert row.
  induction fieldnames as [|k ks IH]; intros [|c cs] Hnd Hlen; try done.
  apply NoDup_cons in Hnd as [Hk Hnd]. simpl in *.
  rewrite String.eqb_refl. simpl. f_equal.
  etransitivity; [|apply (IH cs Hnd); lia].
  apply Forall_fmap_ext_1, Forall_forall. intros key Hkey.
  destruct (String.eqb_spec key k) as [->|_]; [done|done].
Qed.

Lemma dict_to_list_row_record fieldnames row :
  NoDup fieldnames →
  List.length row = List.length fieldnames →
  CsvFileManager.dict_to_list py_str fieldnames (RowDict (row_record fieldnames row) None)
  = Return row.
Proof.
  intros Hnd Hlen. unfold CsvFileManager.dict_to_list.
  rewrite bool_decide_eq_false_2 by (intros [? ?]; done). simpl.
  replace (existsb _ _) with false.
  - by rewrite cells_of_row_record.
  - symmetry. apply not_true_is_false. intros (k & Hk & Hb)%existsb_exists.
    apply negb_true_iff, bool_decide_eq_false in Hb. apply Hb.
    apply (dict_keys_row_record fieldnames row). by apply list_elem_of_In.
Qed.

Lemma writerows_well_formed fieldnames (rows : list csv_line) (lines : list csv_line) :
  NoDup fieldnames →
  Forall (well_formed_row fieldnames) rows →
  CsvFileManager.writerows py_str fieldnames
    ((fun row => RowDict (row_record fieldnames row) None) <$> rows) lines
  = (Return (), lines ++ rows).
Proof.
  intros Hnd Hrows. revert lines.
  induction Hrows as [|row rows [Hlen _] _ IH]; intros lines.
  - simpl. by rewrite app_nil_r.
  - rewrite fmap_cons. cbn [CsvFileManager.writerows].
    unfold mbind at 1, io_bind at 1, lift.
    rewrite dict_to_list_row_record by done.
    unfold mbind at 1, io_bind at 1, CsvFileManager.writeline.
    rewrite IH. by rewrite <- app_assoc.
Qed.

(** On a well-formed table [delete_object] succeeds and writes back the
    header and exactly the rows that are not equal to the record. *)
Lemma csv_delete_object_all (data : pyval) (fieldnames : list string) (body : list csv_line) :
  NoDup fieldnames →
  Forall (well_formed_row fieldnames) body →
  CsvFileManager.delete_object py_str data (Some (fieldnames :: body))
  = (Return (),
     Some (fieldnames ::
           List.filter (fun row => negb (py_eq (PyDict (row_record fieldnames row)) data)) body)).
Proof.
  intros Hnd Hbody.
  unfold CsvFileManager.delete_object, CsvFileManager.read_rows.
  unfold mbind at 1, io_bind at 1. cbn beta iota.
  replace (List.filter CsvFileManager.nonempty_line body) with body.
  2: { clear -Hbody. induction Hbody as [|row rows [_ Hne] _ IH]; [done|].
       simpl. destruct row; [done|]. simpl. by f_equal. }
  replace (List.filter _ (CsvFileManager.dict_of_row fieldnames <$> body))
    with ((fun row => RowDict (row_record fieldnames row) None) <$>
            List.filter (fun row => negb (py_eq (PyDict (row_record fieldnames row)) data)) body).
  2: { clear -Hnd Hbody. induction Hbody as [|row rows [Hlen _] _ IH]; [done|].
       rewrite fmap_cons. cbn [List.filter].
       rewrite dict_of_row_well_formed by done. cbn [row_eq].
       destruct (negb _); [rewrite fmap_cons|]; by rewrite IH. }
  unfold CsvFileManager.open_w, CsvFileManager.fieldnames_of, CsvFileManager.writeheader,
    CsvFileManager.writeline.
  unfold mbind, io_bind, mret, io_ret. cbn beta iota.
  rewrite writerows_well_formed; [done | done |].
  clear -Hbody. induction Hbody as [|row rows Hrow _ IH]; simpl; [constructor|].
  destruct (negb _); [by constructor | done].
Qed.

End Table.

Example csv_delete_object_twice :
  CsvFileManager.delete_object (fun _ => "") (PyDict [("name", PyStr "dev"); ("url", PyStr "u")])
    (Some [["name"; "url"]; ["dev"; "u"]; ["ops"; "v"]; ["dev"; "u"]])
  = (Return (), Some [["name"; "url"]; ["ops"; "v"]]).
Proof. reflexivity. Qed.

(** * Further properties *)

(** ** Construction from the payload *)

Lemma vacancy_of_item_record item :
  has_snippet item = true → vacancy_of_item item = Return (record_of_item item).
Proof.
  destruct item as [| | | | |d]; try discriminate. simpl.
  unfold vacancy_of_item. simpl.
  destruct (assoc_get "snippet" d) as [[| | | | |sn]|]; try discriminate.
  done.
Qed.

Lemma vacancy_of_item_raises item :
  has_snippet item = false → vacancy_of_item item = Raise AttributeError.
Proof.
  destruct item as [| | | | |d]; try done. simpl.
  unfold vacancy_of_item. simpl.
  by destruct (assoc_get "snippet" d) as [[| | | | |sn]|].
Qed.

Lemma mapM_vacancy_of_item items :
  mapM vacancy_of_item items
  = if forallb has_snippet items then Return (record_of_item <$> items)
    else Raise AttributeError.
Proof.
  induction items as [|item items IH]; [done|].
  cbn [mapM forallb]. destruct (has_snippet item) eqn:Hitem.
  - rewrite (vacancy_of_item_record _ Hitem), IH. simpl.
    by destruct (forallb has_snippet items).
  - by rewrite (vacancy_of_item_raises _ Hitem).
Qed.

(** X1: on a payload whose "items" is a list, [json_to_object] returns one
    record per item, in the order of the items, each field being what the
    item holds under its key and [None] where the key is missing, when
    every item is a dictionary with a "snippet" dictionary; as soon as one
    item is not, it raises [AttributeError]. *)
Theorem json_to_object_items (payload : list (string * pyval)) (items : list pyval) :
  assoc_get "items" payload = Some (PyList items) →
  json_to_object (PyDict payload)
  = if forallb has_snippet items then Return (record_of_item <$> items)
    else Raise AttributeError.
Proof.
  intros Hitems. unfold json_to_object. simpl. rewrite Hitems. simpl.
  apply mapM_vacancy_of_item.
Qed.

Lemma json_to_object_items_witness :
  json_to_object
    (PyDict [("found", PyInt 2);
             ("items", PyList [PyDict [("name", PyStr "dev"); ("snippet", PyDict [])];
                               PyDict [("snippet", PyDict [("requirement", PyStr "sql")])]])])
  = Return [mkVacancy (PyStr "dev") PyNone PyNone PyNone PyNone;
            mkVacancy PyNone PyNone PyNone PyNone (PyStr "sql")].
Proof.
  apply (json_to_object_items
           [("found", PyInt 2);
            ("items", PyList [PyDict [("name", PyStr "dev"); ("snippet", PyDict [])];
                              PyDict [("snippet", PyDict [("requirement", PyStr "sql")])]])]
           [PyDict [("name", PyStr "dev"); ("snippet", PyDict [])];
            PyDict [("snippet", PyDict [("requirement", PyStr "sql")])]]).
  reflexivity.
Defined.

(** X2: a payload that is a dictionary without the key "items" makes
    [json_to_object] raise [TypeError] (it iterates [None]); a payload that
    is no dictionary makes it raise [AttributeError]. *)
Theorem json_to_object_malformed (payload : pyval) :
  (∀ d, payload = PyDict d → assoc_get "items" d = None →
        json_to_object payload = Raise TypeError)
  ∧ ((∀ d, payload ≠ PyDict d) → json_to_object payload = Raise AttributeError).
Proof.
  split.
  - intros d -> Hd. unfold json_to_object. simpl. by rewrite Hd.
  - intros Hp. destruct payload; try done. by destruct (Hp entries).
Qed.

Lemma json_to_object_malformed_witness :
  json_to_object (PyDict [("errors", PyList [])]) = Raise TypeError
  ∧ json_to_object (PyList []) = Raise AttributeError.
Proof.
  split.
  - apply (proj1 (json_to_object_malformed (PyDict [("errors", PyList [])])) _ eq_refl).
    reflexivity.
  - apply (proj2 (json_to_object_malformed (PyList []))). discriminate.
Defined.

(** ** The salary check on other salaries *)

(** X3: with a threshold that is supplied, a salary that is neither [None]
    nor a dictionary makes the salary check raise [AttributeError]; this is
    so for the salary [""] that the constructor gives a record built
    without one. *)
Theorem is_filter_by_salary_not_a_range (threshold vacancy_salary : pyval) :
  truthy threshold = true →
  (vacancy_salary ≠ PyNone → (∀ d, vacancy_salary ≠ PyDict d) →
   is_filter_by_salary threshold vacancy_salary = Raise AttributeError)
  ∧ (∀ n url description requirements,
       is_filter_by_salary threshold
         (salary (__init__ n url None description requirements))
       = Raise AttributeError).
Proof.
  intros HT. unfold is_filter_by_salary. rewrite HT. simpl. split; [|done].
  intros Hnone Hdict. destruct vacancy_salary; try done.
  by destruct (Hdict entries).
Qed.

Lemma is_filter_by_salary_not_a_range_witness :
  is_filter_by_salary (PyInt 1500)
    (salary (__init__ (PyStr "dev") None None None None)) = Raise AttributeError
  ∧ is_filter_by_salary (PyInt 1500) (PyInt 2000) = Raise AttributeError.
Proof.
  destruct (is_filter_by_salary_not_a_range (PyInt 1500) (PyInt 2000) eq_refl) as [H1 H2].
  split; [apply H2 | apply H1; [discriminate | intros d; discriminate]].
Defined.

(** ** The filter engine, further *)

Lemma filter_sublist {A : Type} (keep : A → bool) (l : list A) :
  List.filter keep l `sublist_of` l.
Proof.
  induction l as [|x l IH]; simpl; [constructor|].
  destruct (keep x); by constructor.
Qed.

Lemma filter_filter_same {A : Type} (keep : A → bool) (l : list A) :
  List.filter keep (List.filter keep l) = List.filter keep l.
Proof.
  induction l as [|x l IH]; simpl; [done|].
  destruct (keep x) eqn:Hx; simpl; [|done].
  by rewrite Hx, IH.
Qed.

Lemma Forall_filter_keep {A : Type} (P : A → Prop) (keep : A → bool) (l : list A) :
  Forall P l → Forall P (List.filter keep l).
Proof.
  induction 1 as [|x l Hx _ IH]; simpl; [constructor|].
  destruct (keep x); [by constructor | done].
Qed.

(** X4: on records of the data model and a salary criterion that is text, a
    number or absent, [filter_by_fields] returns records of the collection,
    in their order (a sublist), and at least one whenever the collection has
    one: the result is empty only for the empty collection. *)
Theorem filter_by_fields_sublist (vacancies : list Vacancy) (kwargs : gmap string pyval) :
  scalar (kwarg kwargs "salary") = true →
  Forall (fun v => salary_in_model (salary v) = true) vacancies →
  ∃ result, filter_by_fields vacancies kwargs = Return result
            ∧ result `sublist_of` vacancies
            ∧ (result = [] ↔ vacancies = []).
Proof.
  intros Hc Hv. rewrite (filter_by_fields_kept _ _ Hc Hv).
  eexists. split; [reflexivity|].
  pose proof (filter_sublist (condition_holds kwargs) vacancies) as Hsub.
  destruct (List.filter (condition_holds kwargs) vacancies) as [|v kept]; [done|].
  split; [done|]. split; [done|].
  intros ->. by apply sublist_nil_r in Hsub.
Qed.

Lemma filter_by_fields_sublist_witness :
  ∃ result, filter_by_fields [junior; senior] {[ "salary" := PyStr "1500" ]} = Return result
            ∧ result `sublist_of` [junior; senior]
            ∧ (result = [] ↔ [junior; senior] = []).
Proof.
  apply (filter_by_fields_sublist [junior; senior] {[ "salary" := PyStr "1500" ]}).
  - vm_compute. reflexivity.
  - repeat constructor.
Defined.

(** X5: filtering the result of [filter_by_fields] again by the same
    criteria gives that result again. *)
Theorem filter_by_fields_idempotent (vacancies : list Vacancy) (kwargs : gmap string pyval) :
  scalar (kwarg kwargs "salary") = true →
  Forall (fun v => salary_in_model (salary v) = true) vacancies →
  filter_by_fields vacancies kwargs ≫= (fun result => filter_by_fields result kwargs)
  = filter_by_fields vacancies kwargs.
Proof.
  intros Hc Hv. rewrite (filter_by_fields_kept _ _ Hc Hv). simpl.
  destruct (List.filter (condition_holds kwargs) vacancies) as [|v kept] eqn:Hkept.
  - by rewrite (filter_by_fields_kept _ _ Hc Hv), Hkept.
  - rewrite filter_by_fields_kept; [|done|].
    + by rewrite <- Hkept, filter_filter_same, Hkept.
    + rewrite <- Hkept. by apply Forall_filter_keep.
Qed.

Lemma filter_by_fields_idempotent_witness :
  filter_by_fields [junior; senior] {[ "salary" := PyStr "1500" ]}
    ≫= (fun result => filter_by_fields result {[ "salary" := PyStr "1500" ]})
  = filter_by_fields [junior; senior] {[ "salary" := PyStr "1500" ]}.
Proof.
  apply (filter_by_fields_idempotent [junior; senior] {[ "salary" := PyStr "1500" ]}).
  - vm_compute. reflexivity.
  - repeat constructor.
Defined.

Lemma no_criteria_kwarg kwargs key :
  no_criteria kwargs = true →
  key ∈ ["name"; "url"; "salary"; "description"; "requirements"] →
  truthy (kwarg kwargs key) = false.
Proof.
  unfold no_criteria. rewrite forallb_forall. intros H Hkey.
  apply negb_true_iff, H. by apply list_elem_of_In.
Qed.

(** X6: when none of the five criteria is supplied (each is absent, [None]
    or empty), [filter_by_fields] returns the collection as it is, whatever
    the records hold. *)
Theorem filter_by_fields_no_criteria (vacancies : list Vacancy) (kwargs : gmap string pyval) :
  no_criteria kwargs = true →
  filter_by_fields vacancies kwargs = Return vacancies.
Proof.
  intros H. unfold filter_by_fields, salary_threshold.
  rewrite (no_criteria_kwarg kwargs "salary" H) by set_solver. simpl.
  rewrite (filter_loop_ext _ (fun _ => Return true)).
  - rewrite filter_loop_pure. simpl.
    replace (List.filter (fun _ => true) vacancies) with vacancies.
    + by destruct vacancies.
    + clear. induction vacancies as [|v vs IH]; simpl; [done|]. by f_equal.
  - intros v _. unfold keeps, field_matches.
    rewrite !(no_criteria_kwarg kwargs _ H) by set_solver. done.
Qed.

Lemma filter_by_fields_no_criteria_witness :
  filter_by_fields [junior; senior; open_ended]
    {[ "name" := PyStr ""; "salary" := PyStr ""; "description" := PyStr "";
       "requirements" := PyStr "" ]}
  = Return [junior; senior; open_ended].
Proof.
  apply (filter_by_fields_no_criteria [junior; senior; open_ended]).
  vm_compute. reflexivity.
Defined.

(** X7: a salary criterion whose text is no integer imposes no salary
    constraint: the filter gives what it gives without the criterion. *)
Theorem filter_by_fields_unparseable_salary (vacancies : list Vacancy)
    (kwargs : gmap string pyval) (text : string) :
  int_of_text text = None →
  filter_by_fields vacancies (<["salary" := PyStr text]> kwargs)
  = filter_by_fields vacancies (delete "salary" kwargs).
Proof.
  intros Htext. unfold filter_by_fields, kwarg.
  rewrite lookup_insert_eq, lookup_delete_eq.
  rewrite !lookup_insert_ne, !lookup_delete_ne by done.
  replace (salary_threshold (default PyNone (Some (PyStr text)))) with (@Return pyval PyNone).
  - done.
  - unfold salary_threshold. simpl. rewrite Htext. by destruct (negb _).
Qed.

Lemma filter_by_fields_unparseable_salary_witness :
  filter_by_fields [junior; senior] (<["salary" := PyStr "a lot"]> ∅)
  = filter_by_fields [junior; senior] (delete "salary" ∅).
Proof.
  apply (filter_by_fields_unparseable_salary [junior; senior] ∅ "a lot").
  reflexivity.
Defined.

(** X8: a salary criterion that is a non-empty list or dictionary makes
    [filter_by_fields] raise [TypeError], whatever the collection: [int()]
    rejects it and only [ValueError] is caught. *)
Theorem filter_by_fields_salary_type_error (vacancies : list Vacancy)
    (kwargs : gmap string pyval) :
  scalar (kwarg kwargs "salary") = false →
  truthy (kwarg kwargs "salary") = true →
  filter_by_fields vacancies kwargs = Raise TypeError.
Proof.
  intros Hs Ht. unfold filter_by_fields, salary_threshold. rewrite Ht.
  by destruct (kwarg kwargs "salary").
Qed.

Lemma filter_by_fields_salary_type_error_witness :
  filter_by_fields [] {[ "salary" := PyList [PyInt 1500] ]} = Raise TypeError.
Proof.
  apply (filter_by_fields_salary_type_error [] {[ "salary" := PyList [PyInt 1500] ]});
    vm_compute; reflexivity.
Defined.

(** ** Comparison by salary, further *)

(** X9: when both records have a salary dictionary and one of them has no
    key "to", [>] and [<] raise [KeyError]. *)
Theorem salary_comparison_missing_to (a b : Vacancy) (da db : list (string * pyval)) :
  salary a = PyDict da → salary b = PyDict db →
  assoc_get "to" da = None ∨ assoc_get "to" db = None →
  __gt__ a b = Raise KeyError ∧ __lt__ a b = Raise KeyError.
Proof.
  intros Ha Hb H. unfold __gt__, __lt__. rewrite Ha, Hb. simpl.
  destruct (assoc_get "to" da) as [mine|]; simpl; [|done].
  destruct H as [H|H]; [done|]. by rewrite H.
Qed.

Lemma salary_comparison_missing_to_witness :
  __gt__ upto_200 (mkVacancy (PyStr "e") PyNone (PyDict [("from", PyInt 100)]) PyNone PyNone)
  = Raise KeyError
  ∧ __lt__ upto_200 (mkVacancy (PyStr "e") PyNone (PyDict [("from", PyInt 100)]) PyNone PyNone)
    = Raise KeyError.
Proof.
  apply (salary_comparison_missing_to upto_200
           (mkVacancy (PyStr "e") PyNone (PyDict [("from", PyInt 100)]) PyNone PyNone)
           [("to", PyInt 200)] [("from", PyInt 100)]);
    [reflexivity | reflexivity | right; reflexivity].
Defined.

(** ** Equality of values *)

Lemma pyval_nested_ind (P : pyval → Prop) :
  P PyNone → (∀ b, P (PyBool b)) → (∀ z, P (PyInt z)) → (∀ s, P (PyStr s)) →
  (∀ l, Forall P l → P (PyList l)) →
  (∀ d, Forall (fun kv => P kv.2) d → P (PyDict d)) →
  ∀ v, P v.
Proof.
  intros HNone HBool HInt HStr HList HDict. fix go 1. intros [| b | z | s | l | d].
  - exact HNone.
  - apply HBool.
  - apply HInt.
  - apply HStr.
  - apply HList. induction l as [|x l IH]; constructor; [apply go | exact IH].
  - apply HDict. induction d as [|[k x] d IH]; constructor; [apply go | exact IH].
Qed.

Lemma assoc_get_first {A : Type} (k : string) (v : A) (d : list (string * A)) :
  NoDup (dict_keys d) → (k, v) ∈ d → assoc_get k d = Some v.
Proof.
  induction d as [|[k' v'] d IH]; simpl.
  - intros _ Hin. by apply elem_of_nil in Hin.
  - intros [Hk' Hnd]%NoDup_cons [Heq|Hin]%elem_of_cons.
    + injection Heq as -> ->. by rewrite String.eqb_refl.
    + destruct (String.eqb_spec k k') as [->|_]; [|by apply IH].
      exfalso. apply Hk'. unfold dict_keys.
      apply list_elem_of_fmap. by exists (k', v).
  Qed.

(** [==] holds between a value and itself. *)
Lemma py_eq_refl v : wf_pyval v = true → py_eq v v = true.
Proof.
  induction v as [| b | z | s | l IH | d IH] using pyval_nested_ind; simpl.
  - done.
  - intros _. by destruct b.
  - intros _. apply Z.eqb_refl.
  - intros _. apply String.eqb_refl.
  - induction IH as [|x l Hx _ IHl]; simpl; [done|].
    intros [Hwx Hwl]%andb_prop. by rewrite Hx, IHl.
  - intros [Hnd Hwf]%andb_prop. apply bool_decide_eq_true in Hnd.
    rewrite Nat.eqb_refl. simpl.
    assert (Hsub : ∀ kv, kv ∈ d → kv ∈ d) by done.
    revert Hsub Hwf IH. generalize d at 1 3 4 6 as xs.
    induction xs as [|[k x] xs IHxs]; [done|].
    intros Hsub [Hwx Hwxs]%andb_prop [Hx Hxs]%Forall_cons. simpl in *.
    rewrite (assoc_get_first k x d Hnd) by (apply Hsub, list_elem_of_here).
    rewrite Hx by done. simpl. apply IHxs; [|done|done].
    intros kv Hkv. by apply Hsub, list_elem_of_further.
Qed.

(** ** The structured-record backend, further *)

(** X10: when the file is absent, holds no JSON document, or holds a
    document that is not a list, [add_object] and [delete_object] raise and
    leave the file as it was: an absent file is not created. *)
Theorem json_update_needs_a_list (data : pyval) (file : json_file) :
  (∀ l, file ≠ Document (PyList l)) →
  (∃ e, JsonFileManager.add_object data file = (Raise e, file))
  ∧ (∃ e, JsonFileManager.delete_object data file = (Raise e, file)).
Proof.
  intros Hfile. destruct file as [| |doc]; try (split; by eexists).
  destruct doc; try (split; by eexists).
  by destruct (Hfile items).
Qed.

Lemma json_update_needs_a_list_witness :
  (∃ e, JsonFileManager.add_object (PyDict [("name", PyStr "dev")]) Absent = (Raise e, Absent))
  ∧ (∃ e, JsonFileManager.delete_object (PyDict [("name", PyStr "dev")]) Absent
          = (Raise e, Absent)).
Proof.
  apply (json_update_needs_a_list (PyDict [("name", PyStr "dev")]) Absent).
  intros l. discriminate.
Defined.

(** X11: on a file that holds a list, [delete_object] takes out the first
    entry equal to the record and writes back all the others in their
    order, the later equal entries among them. *)
Theorem json_delete_object_first_equal (data x : pyval) (before after : list pyval) :
  Forall (fun y => py_eq y data = false) before →
  py_eq x data = true →
  JsonFileManager.delete_object data (Document (PyList (before ++ x :: after)))
  = (Return (), Document (PyList (before ++ after))).
Proof. apply json_delete_object_first. Qed.

Lemma json_delete_object_first_equal_witness :
  JsonFileManager.delete_object (PyInt 1)
    (Document (PyList ([PyInt 0] ++ PyBool true :: [PyInt 1; PyInt 2])))
  = (Return (), Document (PyList ([PyInt 0] ++ [PyInt 1; PyInt 2]))).
Proof.
  apply (json_delete_object_first_equal (PyInt 1) (PyBool true) [PyInt 0] [PyInt 1; PyInt 2]).
  - repeat constructor.
  - reflexivity.
Defined.

(** X12: on a file that holds a list with no entry equal to the record,
    [delete_object] raises [ValueError] and leaves the file as it was. *)
Theorem json_delete_object_missing (data : pyval) (l : list pyval) :
  Forall (fun y => py_eq y data = false) l →
  JsonFileManager.delete_object data (Document (PyList l))
  = (Raise ValueError, Document (PyList l)).
Proof.
  intros Hl. unfold JsonFileManager.delete_object.
  unfold mbind, io_bind, lift, py_remove. simpl.
  by rewrite (list_remove_missing _ _ Hl).
Qed.

Lemma json_delete_object_missing_witness :
  JsonFileManager.delete_object (serialized_vacancy undisclosed)
    (Document (PyList [serialized_vacancy junior; serialized_vacancy senior]))
  = (Raise ValueError,
     Document (PyList [serialized_vacancy junior; serialized_vacancy senior])).
Proof.
  apply (json_delete_object_missing (serialized_vacancy undisclosed)
           [serialized_vacancy junior; serialized_vacancy senior]).
  repeat constructor.
Defined.

(** X13: on a file that holds a list with no entry equal to the record,
    [add_object] followed by [delete_object] of the same record gives the
    file back as it was. *)
Theorem json_add_then_delete (data : pyval) (l : list pyval) :
  wf_pyval data = true →
  Forall (fun y => py_eq y data = false) l →
  let added := JsonFileManager.add_object data (Document (PyList l)) in
  added.1 = Return ()
  ∧ JsonFileManager.delete_object data added.2 = (Return (), Document (PyList l)).
Proof.
  intros Hwf Hl. simpl. split; [done|].
  rewrite <- (app_nil_r l) at 2.
  apply json_delete_object_first; [done|]. by apply py_eq_refl.
Qed.

Lemma json_add_then_delete_witness :
  let added :=
    JsonFileManager.add_object (serialized_vacancy senior)
      (Document (PyList [serialized_vacancy junior])) in
  added.1 = Return ()
  ∧ JsonFileManager.delete_object (serialized_vacancy senior) added.2
    = (Return (), Document (PyList [serialized_vacancy junior])).
Proof.
  apply (json_add_then_delete (serialized_vacancy senior) [serialized_vacancy junior]).
  - vm_compute. reflexivity.
  - repeat constructor.
Defined.

(** ** main.py: the run *)

(** X14: [get_vacancies] writes the file only when every step succeeded,
    and then the file holds exactly the list it returns; when a step
    raises, the file is as it was before the run. *)
Theorem get_vacancies_file (hh_vacancies : pyval)
    (name_filter salary_filter description_filter requirements_filter top : string)
    (file : json_file) :
  match get_vacancies hh_vacancies name_filter salary_filter description_filter
          requirements_filter top file with
  | (Return serialized, file') => file' = Document (PyList serialized)
  | (Raise _, file') => file' = file
  end.
Proof.
  unfold get_vacancies, int_of_input.
  unfold mbind at 1, io_bind at 1, lift at 1.
  destruct (json_to_object hh_vacancies) as [vacancies_list|e]; [|done].
  unfold mbind at 1, io_bind at 1, lift at 1.
  destruct (filter_by_fields vacancies_list _) as [filtered_vacancies|e]; [|done].
  unfold mbind at 1, io_bind at 1, lift at 1.
  destruct (int_of_text top) as [N|]; [|done].
  done.
Qed.

Lemma slice_to_length {A : Type} (l : list A) (N : Z) :
  0 ≤ N → Z.of_nat (List.length (slice_to l N)) = Z.min (Z.of_nat (List.length l)) N.
Proof.
  intros HN. unfold slice_to, adjust_stop. rewrite length_take.
  destruct (Z.ltb_spec N 0); [lia|].
  destruct (Z.leb_spec (Z.of_nat (List.length l)) N); lia.
Qed.

Lemma kwarg_filters (name_filter salary_filter description_filter requirements_filter : string) :
  kwarg ({[ "name" := PyStr name_filter; "salary" := PyStr salary_filter;
            "description" := PyStr description_filter;
            "requirements" := PyStr requirements_filter ]} : gmap string pyval) "salary"
  = PyStr salary_filter.
Proof.
  unfold kwarg. rewrite lookup_insert_ne by done. by rewrite lookup_insert_eq.
Qed.

(** X15: on a payload whose items are of the data model and a count that
    is the text of an integer [N], the run succeeds whatever the four
    filter texts are: it saves and returns the mappings of a prefix of a
    sublist of the records of the items, at most [N] of them when [N] is
    not negative. *)
Theorem get_vacancies_succeeds (payload : list (string * pyval)) (items : list pyval)
    (name_filter salary_filter description_filter requirements_filter top : string)
    (N : Z) (file : json_file) :
  assoc_get "items" payload = Some (PyList items) →
  forallb item_in_model items = true →
  int_of_text top = Some N →
  ∃ kept,
    kept `sublist_of` (record_of_item <$> items)
    ∧ get_vacancies (PyDict payload) name_filter salary_filter description_filter
        requirements_filter top file
      = (Return (serialized_vacancies (slice_to kept N)),
         Document (PyList (serialized_vacancies (slice_to kept N))))
    ∧ (0 ≤ N → Z.of_nat (List.length (serialized_vacancies (slice_to kept N))) ≤ N).
Proof.
  intros Hitems Hmodel Htop.
  assert (Hsnip : forallb has_snippet items = true).
  { rewrite forallb_forall in *. intros item Hin.
    by destruct (andb_prop _ _ (Hmodel item Hin)). }
  assert (Hsal : Forall (fun v => salary_in_model (salary v) = true) (record_of_item <$> items)).
  { apply Forall_fmap, Forall_forall. intros item Hin. simpl.
    rewrite forallb_forall in Hmodel.
    by destruct (andb_prop _ _ (Hmodel item (proj1 (list_elem_of_In _ _) Hin))). }
  set (filters := ({[ "name" := PyStr name_filter; "salary" := PyStr salary_filter;
                      "description" := PyStr description_filter;
                      "requirements" := PyStr requirements_filter ]} : gmap string pyval)).
  assert (Hscalar : scalar (kwarg filters "salary") = true).
  { unfold filters. by rewrite kwarg_filters. }
  pose proof (filter_by_fields_kept _ _ Hscalar Hsal) as Hfilter.
  set (kept := match List.filter (condition_holds filters) (record_of_item <$> items) with
               | [] => record_of_item <$> items
               | kept => kept
               end) in Hfilter.
  exists kept. split; [|split].
  - unfold kept. pose proof (filter_sublist (condition_holds filters) (record_of_item <$> items)).
    by destruct (List.filter _ _).
  - apply get_vacancies_truncates with (vacancies_list := record_of_item <$> items); try done.
    unfold json_to_object. simpl. rewrite Hitems. simpl.
    by rewrite mapM_vacancy_of_item, Hsnip.
  - intros HN. unfold serialized_vacancies. rewrite length_fmap, slice_to_length by done. lia.
Qed.

Lemma get_vacancies_succeeds_witness :
  ∃ kept,
    kept `sublist_of`
      (record_of_item <$> [PyDict [("name", PyStr "dev"); ("snippet", PyDict [])]])
    ∧ get_vacancies
        (PyDict [("items", PyList [PyDict [("name", PyStr "dev"); ("snippet", PyDict [])]])])
        "" "1500" "" "" "10" Absent
      = (Return (serialized_vacancies (slice_to kept 10)),
         Document (PyList (serialized_vacancies (slice_to kept 10))))
    ∧ (0 ≤ 10 → Z.of_nat (List.length (serialized_vacancies (slice_to kept 10))) ≤ 10).
Proof.
  apply (get_vacancies_succeeds
           [("items", PyList [PyDict [("name", PyStr "dev"); ("snippet", PyDict [])]])]
           [PyDict [("name", PyStr "dev"); ("snippet", PyDict [])]]
           "" "1500" "" "" "10" 10 Absent); reflexivity.
Defined.

(** ** The tabular backend, further *)

Section Writer.

Variable py_str : pyval → string.

Lemma writerows_app fieldnames (rows1 rows2 : list rowdict) (lines : list csv_line) :
  CsvFileManager.writerows py_str fieldnames (rows1 ++ rows2) lines
  = match CsvFileManager.writerows py_str fieldnames rows1 lines with
    | (Return _, lines') => CsvFileManager.writerows py_str fieldnames rows2 lines'
    | (Raise e, lines') => (Raise e, lines')
    end.
Proof.
  revert lines. induction rows1 as [|row rows1 IH]; intros lines; [done|].
  rewrite <- app_comm_cons. cbn [CsvFileManager.writerows].
  unfold mbind at 1 3, io_bind at 1 3, lift.
  destruct (CsvFileManager.dict_to_list py_str fieldnames row) as [line|e]; [|done].
  unfold mbind at 1 2, io_bind at 1 2, CsvFileManager.writeline.
  apply IH.
Qed.

Lemma existsb_negb {A : Type} (p : A → bool) (l : list A) :
  existsb (fun x => negb (p x)) l = negb (forallb p l).
Proof.
  induction l as [|x l IH]; simpl; [done|].
  rewrite IH. by destruct (p x).
Qed.

Lemma dict_to_list_fits fieldnames (v : pyval) :
  record_fits fieldnames v = true →
  CsvFileManager.dict_to_list py_str fieldnames (rowdict_of v)
  = Return (record_line py_str fieldnames v).
Proof.
  destruct v as [| | | | |d]; try discriminate. intros Hfit.
  unfold CsvFileManager.dict_to_list, rowdict_of, record_line, record_fits in *.
  rewrite bool_decide_eq_false_2 by (intros [? ?]; done). cbn [orb].
  by rewrite existsb_negb, Hfit.
Qed.

Lemma dict_to_list_misfit fieldnames (v : pyval) :
  record_fits fieldnames v = false →
  CsvFileManager.dict_to_list py_str fieldnames (rowdict_of v)
  = Raise (match v with
           | PyDict _ => ValueError
           | _ => AttributeError
           end).
Proof.
  destruct v as [| | | | |d]; try done. intros Hfit.
  unfold CsvFileManager.dict_to_list, rowdict_of, record_fits in *.
  rewrite bool_decide_eq_false_2 by (intros [? ?]; done). cbn [orb].
  by rewrite existsb_negb, Hfit.
Qed.

Lemma writerows_fit fieldnames (records : list pyval) (lines : list csv_line) :
  forallb (record_fits fieldnames) records = true →
  CsvFileManager.writerows py_str fieldnames (rowdict_of <$> records) lines
  = (Return (), lines ++ (record_line py_str fieldnames <$> records)).
Proof.
  revert lines. induction records as [|v records IH]; intros lines Hfit.
  - simpl. by rewrite app_nil_r.
  - apply andb_prop in Hfit as [Hv Hfit].
    rewrite !fmap_cons. cbn [CsvFileManager.writerows].
    unfold mbind at 1, io_bind at 1, lift.
    rewrite (dict_to_list_fits _ _ Hv).
    unfold mbind at 1, io_bind at 1, CsvFileManager.writeline.
    rewrite IH by done. by rewrite <- app_assoc.
Qed.

Lemma record_fits_own_keys (d : list (string * pyval)) :
  record_fits (dict_keys d) (PyDict d) = true.
Proof.
  unfold record_fits. apply forallb_forall. intros k Hk.
  apply bool_decide_eq_true. by apply list_elem_of_In.
Qed.

Lemma csv_save_fit (first : list (string * pyval)) (others : list pyval) (file : csv_file) :
  forallb (record_fits (dict_keys first)) others = true →
  CsvFileManager.save py_str (PyDict first :: others) file
  = (Return (),
     Some (dict_keys first ::
           (record_line py_str (dict_keys first) <$> PyDict first :: others))).
Proof.
  intros Hfit. unfold CsvFileManager.save.
  unfold mbind, io_bind, lift, CsvFileManager.open_w,
    CsvFileManager.writeheader, CsvFileManager.writeline.
  cbn [app].
  rewrite writerows_fit; [done|].
  cbn [forallb]. by rewrite record_fits_own_keys.
Qed.

(** X16: [save] of a sequence that starts with a record, every other
    record being a dictionary whose keys are among those of the first,
    succeeds whatever the file was, and writes the header and one line per
    record, in order: under each key of the header the text of the record's
    value, the empty text for [None] and for a key the record has not. *)
Theorem csv_save_lines (first : list (string * pyval)) (others : list pyval)
    (file : csv_file) :
  forallb (record_fits (dict_keys first)) others = true →
  CsvFileManager.save py_str (PyDict first :: others) file
  = (Return (),
     Some (dict_keys first ::
           (record_line py_str (dict_keys first) <$> PyDict first :: others))).
Proof. apply csv_save_fit. Qed.

(** X17: when a record after the first is no dictionary, or has a key that
    the first has not, [save] raises ([AttributeError], or [ValueError])
    and leaves a file with the header and the lines of the records before
    that one; the records from it on are not written. *)
Theorem csv_save_stops (first : list (string * pyval)) (good : list pyval) (bad : pyval)
    (rest : list pyval) (file : csv_file) :
  forallb (record_fits (dict_keys first)) good = true →
  record_fits (dict_keys first) bad = false →
  CsvFileManager.save py_str (PyDict first :: good ++ bad :: rest) file
  = (Raise (match bad with
            | PyDict _ => ValueError
            | _ => AttributeError
            end),
     Some (dict_keys first ::
           (record_line py_str (dict_keys first) <$> PyDict first :: good))).
Proof.
  intros Hgood Hbad. unfold CsvFileManager.save.
  unfold mbind, io_bind, lift, CsvFileManager.open_w,
    CsvFileManager.writeheader, CsvFileManager.writeline.
  cbn [app].
  rewrite app_comm_cons, fmap_app, writerows_app.
  rewrite writerows_fit by (cbn [forallb]; by rewrite record_fits_own_keys).
  rewrite fmap_cons. cbn [CsvFileManager.writerows].
  unfold mbind at 1, io_bind at 1, lift.
  by rewrite (dict_to_list_misfit _ _ Hbad).
Qed.

End Writer.

Lemma csv_save_lines_witness :
  CsvFileManager.save (fun _ => "")
    (PyDict [("name", PyStr "dev"); ("url", PyNone)] :: [PyDict [("url", PyStr "u")]]) None
  = (Return (), Some [["name"; "url"]; ["dev"; ""]; [""; "u"]]).
Proof.
  apply (csv_save_lines (fun _ => "") [("name", PyStr "dev"); ("url", PyNone)]
           [PyDict [("url", PyStr "u")]] None).
  reflexivity.
Defined.

Lemma csv_save_stops_witness :
  CsvFileManager.save (fun _ => "")
    (PyDict [("name", PyStr "dev")]
       :: [PyDict [("name", PyStr "ops")]] ++ PyDict [("title", PyStr "qa")]
       :: [PyDict [("name", PyStr "sre")]]) None
  = (Raise ValueError, Some [["name"]; ["dev"]; ["ops"]]).
Proof.
  apply (csv_save_stops (fun _ => "") [("name", PyStr "dev")]
           [PyDict [("name", PyStr "ops")]] (PyDict [("title", PyStr "qa")])
           [PyDict [("name", PyStr "sre")]] None); reflexivity.
Defined.

Section Rewrite.

Variable py_str : pyval → string.

Lemma filter_nonempty_well_formed fieldnames (body : list csv_line) :
  Forall (well_formed_row fieldnames) body →
  List.filter CsvFileManager.nonempty_line body = body.
Proof.
  induction 1 as [|row rows [_ Hne] _ IH]; [done|].
  simpl. destruct row; [done|]. simpl. by f_equal.
Qed.

Lemma dict_of_row_body fieldnames (body : list csv_line) :
  NoDup fieldnames →
  Forall (well_formed_row fieldnames) body →
  CsvFileManager.dict_of_row fieldnames <$> body
  = (fun row => RowDict (row_record fieldnames row) None) <$> body.
Proof.
  intros Hnd. induction 1 as [|row rows [Hlen _] _ IH]; [done|].
  rewrite !fmap_cons, IH. f_equal. by apply dict_of_row_well_formed.
Qed.

Lemma filter_all {A : Type} (l : list A) : List.filter (fun _ => true) l = l.
Proof. induction l as [|x l IH]; simpl; [done|]. by f_equal. Qed.

Lemma csv_add_object_fit (data : pyval) (fieldnames : list string) (body : list csv_line) :
  NoDup fieldnames →
  Forall (well_formed_row fieldnames) body →
  record_fits fieldnames data = true →
  CsvFileManager.add_object py_str data (Some (fieldnames :: body))
  = (Return (), Some (fieldnames :: body ++ [record_line py_str fieldnames data])).
Proof.
  intros Hnd Hbody Hfit.
  unfold CsvFileManager.add_object, CsvFileManager.read_rows.
  unfold mbind at 1, io_bind at 1. cbn beta iota.
  rewrite (filter_nonempty_well_formed _ _ Hbody), filter_all,
    (dict_of_row_body _ _ Hnd Hbody).
  unfold CsvFileManager.open_w, CsvFileManager.fieldnames_of, CsvFileManager.tell,
    CsvFileManager.writeheader, CsvFileManager.writeline.
  unfold mbind, io_bind, mret, io_ret. cbn beta iota. cbn [List.length Nat.eqb app].
  rewrite writerows_app, writerows_well_formed by done.
  cbn [CsvFileManager.writerows].
  unfold mbind at 1, io_bind at 1, lift.
  rewrite (dict_to_list_fits _ _ _ Hfit).
  unfold mbind, io_bind, mret, io_ret, CsvFileManager.writeline. cbn beta iota.
  by rewrite <- app_assoc.
Qed.

(** X18: on a well-formed table (distinct field names, every row with one
    cell per field name and at least one), [add_object] of a dictionary
    whose keys are among the field names keeps the header and every row as
    they are and adds the record's line at the end. *)
Theorem csv_add_object_appends (data : pyval) (fieldnames : list string)
    (body : list csv_line) :
  NoDup fieldnames →
  Forall (well_formed_row fieldnames) body →
  record_fits fieldnames data = true →
  CsvFileManager.add_object py_str data (Some (fieldnames :: body))
  = (Return (), Some (fieldnames :: body ++ [record_line py_str fieldnames data])).
Proof. apply csv_add_object_fit. Qed.

(** X19: on a well-formed table, [delete_object] succeeds and writes back
    the header and, in their order, exactly the rows whose dictionary
    (field name to cell text) is not equal to the record: every equal row
    is taken out. *)
Theorem csv_delete_object_every_equal (data : pyval) (fieldnames : list string)
    (body : list csv_line) :
  NoDup fieldnames →
  Forall (well_formed_row fieldnames) body →
  CsvFileManager.delete_object py_str data (Some (fieldnames :: body))
  = (Return (),
     Some (fieldnames ::
           List.filter (fun row => negb (py_eq (PyDict (row_record fieldnames row)) data)) body)).
Proof. apply csv_delete_object_all. Qed.

(** X20: on an absent file [add_object] and [delete_object] raise
    [FileNotFoundError] and do not create it; on a file without any line
    they raise [ValueError] and leave it without any line. *)
Theorem csv_update_needs_a_header (data : pyval) :
  CsvFileManager.add_object py_str data None = (Raise FileNotFoundError, None)
  ∧ CsvFileManager.delete_object py_str data None = (Raise FileNotFoundError, None)
  ∧ CsvFileManager.add_object py_str data (Some []) = (Raise ValueError, Some [])
  ∧ CsvFileManager.delete_object py_str data (Some []) = (Raise ValueError, Some []).
Proof. repeat split. Qed.

Lemma dict_of_row_long fieldnames (row : csv_line) :
  (List.length fieldnames < List.length row)%nat →
  ∃ d rest, CsvFileManager.dict_of_row fieldnames row = RowDict d (Some rest).
Proof.
  intros Hlen. unfold CsvFileManager.dict_of_row.
  apply Nat.ltb_lt in Hlen. rewrite Hlen. by eexists _, _.
Qed.

Lemma writerows_stops_at_long fieldnames (good : list csv_line) d rest
    (after : list rowdict) (lines : list csv_line) :
  NoDup fieldnames →
  Forall (well_formed_row fieldnames) good →
  CsvFileManager.writerows py_str fieldnames
    (((fun row => RowDict (row_record fieldnames row) None) <$> good)
       ++ RowDict d (Some rest) :: after) lines
  = (Raise ValueError, lines ++ good).
Proof.
  intros Hnd Hgood. rewrite writerows_app, writerows_well_formed by done.
  cbn [CsvFileManager.writerows]. unfold mbind at 1, io_bind at 1, lift.
  unfold CsvFileManager.dict_to_list.
  by rewrite bool_decide_eq_true_2 by by eexists.
Qed.

Lemma filter_app_bool {A : Type} (keep : A → bool) (l1 l2 : list A) :
  List.filter keep (l1 ++ l2) = List.filter keep l1 ++ List.filter keep l2.
Proof.
  induction l1 as [|x l1 IH]; simpl; [done|].
  destruct (keep x); simpl; by rewrite IH.
Qed.

Lemma filter_rows_not_equal (data : pyval) fieldnames (good : list csv_line) :
  List.filter (fun row => negb (row_eq row data))
    ((fun row => RowDict (row_record fieldnames row) None) <$> good)
  = (fun row => RowDict (row_record fieldnames row) None) <$>
      List.filter (fun row => negb (py_eq (PyDict (row_record fieldnames row)) data)) good.
Proof.
  induction good as [|row good IH]; [done|].
  rewrite fmap_cons. cbn [List.filter row_eq].
  destruct (negb _); [rewrite fmap_cons|]; by rewrite IH.
Qed.

Lemma Forall_filter_rows fieldnames (keep : csv_line → bool) (good : list csv_line) :
  Forall (well_formed_row fieldnames) good →
  Forall (well_formed_row fieldnames) (List.filter keep good).
Proof. apply Forall_filter_keep. Qed.

(** X21: when a table has a row with more cells than field names, the rows
    before it being well formed, [add_object] and [delete_object] raise
    [ValueError] at that row while rewriting the file: the file is left
    with the header and the rows before it (for [delete_object], those not
    equal to the record), and that row and every row after it are lost. *)
Theorem csv_rewrite_stops_at_long_row (data : pyval) (fieldnames : list string)
    (good : list csv_line) (long : csv_line) (after : list csv_line) :
  NoDup fieldnames →
  Forall (well_formed_row fieldnames) good →
  (List.length fieldnames < List.length long)%nat →
  CsvFileManager.add_object py_str data (Some (fieldnames :: good ++ long :: after))
  = (Raise ValueError, Some (fieldnames :: good))
  ∧ CsvFileManager.delete_object py_str data (Some (fieldnames :: good ++ long :: after))
    = (Raise ValueError,
       Some (fieldnames ::
             List.filter (fun row => negb (py_eq (PyDict (row_record fieldnames row)) data))
               good)).
Proof.
  intros Hnd Hgood Hlong.
  destruct (dict_of_row_long fieldnames long Hlong) as (d & rest & Hrow).
  assert (Hne : CsvFileManager.nonempty_line long = true).
  { destruct long; [simpl in Hlong; lia | done]. }
  assert (Hrows : CsvFileManager.dict_of_row fieldnames <$>
                    List.filter CsvFileManager.nonempty_line (good ++ long :: after)
                  = ((fun row => RowDict (row_record fieldnames row) None) <$> good)
                      ++ RowDict d (Some rest)
                      :: (CsvFileManager.dict_of_row fieldnames <$>
                            List.filter CsvFileManager.nonempty_line after)).
  { rewrite filter_app_bool, (filter_nonempty_well_formed _ _ Hgood).
    cbn [List.filter]. rewrite Hne, fmap_app, fmap_cons, Hrow.
    by rewrite (dict_of_row_body _ _ Hnd Hgood). }
  split.
  - unfold CsvFileManager.add_object, CsvFileManager.read_rows.
    unfold mbind at 1, io_bind at 1. cbn beta iota.
    rewrite filter_all, Hrows.
    unfold CsvFileManager.open_w, CsvFileManager.fieldnames_of, CsvFileManager.tell,
      CsvFileManager.writeheader, CsvFileManager.writeline.
    unfold mbind, io_bind, mret, io_ret. cbn beta iota. cbn [List.length Nat.eqb app].
    rewrite <- app_assoc, <- app_comm_cons.
    by rewrite writerows_stops_at_long.
  - unfold CsvFileManager.delete_object, CsvFileManager.read_rows.
    unfold mbind at 1, io_bind at 1. cbn beta iota.
    rewrite Hrows, filter_app_bool, filter_rows_not_equal.
    cbn [List.filter row_eq negb].
    unfold CsvFileManager.open_w, CsvFileManager.fieldnames_of,
      CsvFileManager.writeheader, CsvFileManager.writeline.
    unfold mbind, io_bind, mret, io_ret. cbn beta iota. cbn [app].
    by rewrite writerows_stops_at_long by (by try apply Forall_filter_rows).
Qed.

End Rewrite.

Lemma csv_add_object_appends_witness :
  CsvFileManager.add_object (fun _ => "") (PyDict [("url", PyStr "w"); ("name", PyStr "sre")])
    (Some [["name"; "url"]; ["dev"; "u"]; ["ops"; "v"]])
  = (Return (), Some [["name"; "url"]; ["dev"; "u"]; ["ops"; "v"]; ["sre"; "w"]]).
Proof.
  apply (csv_add_object_appends (fun _ => "")
           (PyDict [("url", PyStr "w"); ("name", PyStr "sre")])
           ["name"; "url"] [["dev"; "u"]; ["ops"; "v"]]).
  - apply (bool_decide_unpack _). vm_compute. exact I.
  - repeat constructor; discriminate.
  - reflexivity.
Defined.

Lemma csv_delete_object_every_equal_witness :
  CsvFileManager.delete_object (fun _ => "") (PyDict [("url", PyStr "u"); ("name", PyStr "dev")])
    (Some [["name"; "url"]; ["dev"; "u"]; ["ops"; "v"]; ["dev"; "u"]])
  = (Return (), Some [["name"; "url"]; ["ops"; "v"]]).
Proof.
  apply (csv_delete_object_every_equal (fun _ => "")
           (PyDict [("url", PyStr "u"); ("name", PyStr "dev")])
           ["name"; "url"] [["dev"; "u"]; ["ops"; "v"]; ["dev"; "u"]]).
  - apply (bool_decide_unpack _). vm_compute. exact I.
  - repeat constructor; discriminate.
Defined.

Lemma csv_rewrite_stops_at_long_row_witness :
  CsvFileManager.add_object (fun _ => "") (PyDict [("name", PyStr "sre")])
    (Some (["name"] :: [["dev"]] ++ ["ops"; "stray"] :: [["qa"]]))
  = (Raise ValueError, Some [["name"]; ["dev"]])
  ∧ CsvFileManager.delete_object (fun _ => "") (PyDict [("name", PyStr "sre")])
      (Some (["name"] :: [["dev"]] ++ ["ops"; "stray"] :: [["qa"]]))
    = (Raise ValueError, Some [["name"]; ["dev"]]).
Proof.
  apply (csv_rewrite_stops_at_long_row (fun _ => "") (PyDict [("name", PyStr "sre")])
           ["name"] [["dev"]] ["ops"; "stray"] [["qa"]]).
  - apply (bool_decide_unpack _). vm_compute. exact I.
  - repeat constructor; discriminate.
  - simpl. lia.
Defined.

Section SaveThenUpdate.

Variable py_str : pyval → string.

Lemma record_line_length fieldnames (v : pyval) :
  record_fits fieldnames v = true →
  List.length (record_line py_str fieldnames v) = List.length fieldnames.
Proof.
  destruct v; try discriminate. intros _. unfold record_line. apply length_fmap.
Qed.

Lemma record_lines_well_formed fieldnames (records : list pyval) :
  fieldnames ≠ [] →
  forallb (record_fits fieldnames) records = true →
  Forall (well_formed_row fieldnames) (record_line py_str fieldnames <$> records).
Proof.
  intros Hne Hfit. apply Forall_fmap, Forall_forall. intros v Hv.
  rewrite forallb_forall in Hfit.
  pose proof (record_line_length fieldnames v
                (Hfit v (proj1 (list_elem_of_In _ _) Hv))) as Hlen.
  split; [done|]. simpl. intros Hnil. rewrite Hnil in Hlen.
  by destruct fieldnames.
Qed.

(** X22: after [save] of records that fit the keys of the first (which are
    distinct, and at least one), [add_object] of one more fitting record
    leaves the file that [save] of the sequence with that record at its end
    writes. *)
Theorem csv_save_then_add (first : list (string * pyval)) (others : list pyval)
    (data : pyval) (file : csv_file) :
  NoDup (dict_keys first) →
  first ≠ [] →
  forallb (record_fits (dict_keys first)) others = true →
  record_fits (dict_keys first) data = true →
  let saved := CsvFileManager.save py_str (PyDict first :: others) file in
  saved.1 = Return ()
  ∧ CsvFileManager.add_object py_str data saved.2
    = CsvFileManager.save py_str ((PyDict first :: others) ++ [data]) file.
Proof.
  intros Hnd Hne Hfit Hdata. cbn zeta.
  rewrite (csv_save_fit py_str first others file Hfit).
  split; [done|]. cbn [snd].
  rewrite <- app_comm_cons, (csv_save_fit py_str first (others ++ [data]) file).
  2: { rewrite forallb_app, Hfit. cbn [forallb]. by rewrite Hdata. }
  rewrite csv_add_object_fit; [| done | | done].
  - by rewrite !fmap_cons, fmap_app.
  - apply record_lines_well_formed.
    + by destruct first.
    + cbn [forallb]. by rewrite record_fits_own_keys.
Qed.

Lemma py_eq_dict (xs ys : list (string * pyval)) :
  py_eq (PyDict xs) (PyDict ys)
  = Nat.eqb (List.length xs) (List.length ys)
    && forallb (fun kv => match assoc_get kv.1 ys with
                          | Some w => py_eq kv.2 w
                          | None => false
                          end) xs.
Proof.
  simpl. f_equal. induction xs as [|[k v] xs IH]; simpl; [done|]. by rewrite IH.
Qed.

Lemma row_record_entry fieldnames (row : csv_line) (k : string) :
  List.length row = List.length fieldnames →
  k ∈ fieldnames →
  ∃ cell, In (k, PyStr cell) (row_record fieldnames row).
Proof.
  unfold row_record. revert row.
  induction fieldnames as [|k' ks IH]; intros [|c cs] Hlen Hk; simpl in *; try done.
  - by apply elem_of_nil in Hk.
  - apply elem_of_cons in Hk as [->|Hk].
    + exists c. by left.
    + destruct (IH cs) as [cell Hcell]; [lia | done |]. exists cell. by right.
Qed.

Lemma py_eq_row_non_text fieldnames (row : csv_line) (d : list (string * pyval))
    (k : string) (v : pyval) :
  List.length row = List.length fieldnames →
  k ∈ fieldnames →
  assoc_get k d = Some v →
  (∀ text, v ≠ PyStr text) →
  py_eq (PyDict (row_record fieldnames row)) (PyDict d) = false.
Proof.
  intros Hlen Hk Hd Hv. rewrite py_eq_dict. apply andb_false_intro2.
  apply not_true_is_false. rewrite forallb_forall. intros Hall.
  destruct (row_record_entry fieldnames row k Hlen Hk) as [cell Hcell].
  specialize (Hall _ Hcell). simpl in Hall. rewrite Hd in Hall.
  destruct v; try done. by destruct (Hv s).
Qed.

(** X23: on a well-formed table, [delete_object] of a record that holds,
    under one of the field names, a value that is no text ([None], a
    number, a range) takes out no row: the cells read back are texts, and
    no row is equal to such a record. *)
Theorem csv_delete_object_non_text (d : list (string * pyval)) (k : string) (v : pyval)
    (fieldnames : list string) (body : list csv_line) :
  NoDup fieldnames →
  Forall (well_formed_row fieldnames) body →
  k ∈ fieldnames →
  assoc_get k d = Some v →
  (∀ text, v ≠ PyStr text) →
  CsvFileManager.delete_object py_str (PyDict d) (Some (fieldnames :: body))
  = (Return (), Some (fieldnames :: body)).
Proof.
  intros Hnd Hbody Hk Hd Hv. rewrite csv_delete_object_all by done.
  do 3 f_equal. induction Hbody as [|row rows [Hlen _] _ IH]; [done|].
  cbn [List.filter]. rewrite (py_eq_row_non_text _ _ _ _ _ Hlen Hk Hd Hv).
  simpl. by f_equal.
Qed.

Lemma text_record_fits fieldnames (v : pyval) :
  text_record fieldnames v → record_fits fieldnames v = true.
Proof.
  intros (cells & Hlen & ->). unfold record_fits. apply forallb_forall. intros k Hk.
  apply bool_decide_eq_true. apply (dict_keys_row_record fieldnames cells).
  by apply list_elem_of_In.
Qed.

Lemma text_record_line fieldnames (v : pyval) :
  NoDup fieldnames →
  text_record fieldnames v →
  PyDict (row_record fieldnames (record_line py_str fieldnames v)) = v.
Proof.
  intros Hnd (cells & Hlen & ->). unfold record_line.
  by rewrite cells_of_row_record.
Qed.

Lemma filter_text_records (data : pyval) fieldnames (records : list pyval) :
  NoDup fieldnames →
  Forall (text_record fieldnames) records →
  List.filter (fun row => negb (py_eq (PyDict (row_record fieldnames row)) data))
    (record_line py_str fieldnames <$> records)
  = record_line py_str fieldnames <$> List.filter (fun v => negb (py_eq v data)) records.
Proof.
  intros Hnd. induction 1 as [|v records Hv _ IH]; [done|].
  rewrite fmap_cons. cbn [List.filter].
  rewrite (text_record_line _ _ Hnd Hv).
  destruct (negb _); [rewrite fmap_cons|]; by rewrite IH.
Qed.

(** X24: after [save] of records of texts over the same distinct field
    names (at least one), [delete_object] of a record leaves the header and
    the lines of exactly the saved records that are not equal to it, in
    their order. *)
Theorem csv_save_then_delete (first : list (string * pyval)) (others : list pyval)
    (data : pyval) (file : csv_file) :
  NoDup (dict_keys first) →
  first ≠ [] →
  Forall (text_record (dict_keys first)) (PyDict first :: others) →
  let saved := CsvFileManager.save py_str (PyDict first :: others) file in
  saved.1 = Return ()
  ∧ CsvFileManager.delete_object py_str data saved.2
    = (Return (),
       Some (dict_keys first ::
             (record_line py_str (dict_keys first) <$>
                List.filter (fun v => negb (py_eq v data)) (PyDict first :: others)))).
Proof.
  intros Hnd Hne Htext. cbn zeta.
  assert (Hfit : forallb (record_fits (dict_keys first)) (PyDict first :: others) = true).
  { apply forallb_forall. intros v Hv. apply text_record_fits.
    rewrite Forall_forall in Htext. by apply Htext, list_elem_of_In. }
  rewrite (csv_save_fit py_str first others file)
    by (cbn [forallb] in Hfit; by destruct (andb_prop _ _ Hfit)).
  split; [done|]. cbn [snd].
  rewrite csv_delete_object_all; [| done |].
  - by rewrite filter_text_records.
  - apply record_lines_well_formed; [by destruct first | done].
Qed.

End SaveThenUpdate.

Lemma csv_save_then_add_witness :
  let saved :=
    CsvFileManager.save (fun _ => "")
      (PyDict [("name", PyStr "dev"); ("url", PyNone)] :: [PyDict [("name", PyStr "ops")]])
      None in
  saved.1 = Return ()
  ∧ CsvFileManager.add_object (fun _ => "") (PyDict [("url", PyStr "w")]) saved.2
    = CsvFileManager.save (fun _ => "")
        ((PyDict [("name", PyStr "dev"); ("url", PyNone)] :: [PyDict [("name", PyStr "ops")]])
           ++ [PyDict [("url", PyStr "w")]]) None.
Proof.
  apply (csv_save_then_add (fun _ => "") [("name", PyStr "dev"); ("url", PyNone)]
           [PyDict [("name", PyStr "ops")]] (PyDict [("url", PyStr "w")]) None).
  - apply (bool_decide_unpack _). vm_compute. exact I.
  - discriminate.
  - reflexivity.
  - reflexivity.
Defined.

Lemma csv_delete_object_non_text_witness :
  CsvFileManager.delete_object (fun _ => "")
    (PyDict [("name", PyStr "dev"); ("salary", PyNone)])
    (Some [["name"; "salary"]; ["dev"; ""]; ["ops"; "100"]])
  = (Return (), Some [["name"; "salary"]; ["dev"; ""]; ["ops"; "100"]]).
Proof.
  apply (csv_delete_object_non_text (fun _ => "")
           [("name", PyStr "dev"); ("salary", PyNone)] "salary" PyNone
           ["name"; "salary"] [["dev"; ""]; ["ops"; "100"]]).
  - apply (bool_decide_unpack _). vm_compute. exact I.
  - repeat constructor; discriminate.
  - apply (bool_decide_unpack _). vm_compute. exact I.
  - reflexivity.
  - discriminate.
Defined.

Lemma csv_save_then_delete_witness :
  let saved :=
    CsvFileManager.save (fun _ => "")
      (PyDict [("name", PyStr "dev"); ("url", PyStr "u")]
         :: [PyDict [("name", PyStr "ops"); ("url", PyStr "v")]]) None in
  saved.1 = Return ()
  ∧ CsvFileManager.delete_object (fun _ => "")
      (PyDict [("url", PyStr "u"); ("name", PyStr "dev")]) saved.2
    = (Return (), Some [["name"; "url"]; ["ops"; "v"]]).
Proof.
  apply (csv_save_then_delete (fun _ => "") [("name", PyStr "dev"); ("url", PyStr "u")]
           [PyDict [("name", PyStr "ops"); ("url", PyStr "v")]]
           (PyDict [("url", PyStr "u"); ("name", PyStr "dev")]) None).
  - apply (bool_decide_unpack _). vm_compute. exact I.
  - discriminate.
  - repeat constructor.
    + by exists ["dev"; "u"].
    + by exists ["ops"; "v"].
Defined.
